(** * Device telemetry pipeline: simulation client and ingestion server

    A shallow embedding of the Go sources of the CoAP variant
    ([coap-local]) and of the HTTP variant ([http-google]) of the
    pipeline, and the properties of its specification that are settled
    on it.

    Conventions of the embedding.
    - Go [int64] values (event identifiers and Unix timestamps on the
      wire, [time.Duration] in nanoseconds) are [Z]; a narrowing
      conversion is written out as a reduction modulo a power of two.
    - Go [float64] values are exact rationals [Q]: every finite float64
      is a rational and the comparisons [<], [<=], [>] of the code agree
      with the order of [Q] on them.  Rounding of the arithmetic and the
      non-numbers of IEEE 754 are outside the model.
    - Go strings are [string] (byte strings).
    - A mutex-protected critical section is one atomic step on the
      protected state; the clock and the random source are inputs of
      the step that reads them. *)

From Stdlib Require Import ZArith QArith Lqa String Ascii List Lia DecimalString.
From stdpp Require Import gmap strings list.

Local Open Scope string_scope.
Local Open Scope list_scope.
Local Open Scope Z_scope.

(** ** Code shared by the two servers and the two clients

    [eventDefinitions], [mapSeverityToLevel], [tempToSeverityString]
    and [tempToMessage] have the same text in the CoAP and in the HTTP
    server ([eventDefinitions] in the CoAP client as well), [clamp] the
    same text in both clients; each is embedded once. *)

(** [float64]. *)
Abbreviation float64 := Q (only parsing).

(** The comparison operators of the code on [float64]. *)
Definition flt (x y : float64) : bool := negb (Qle_bool y x).
Definition fle (x y : float64) : bool := Qle_bool x y.
Definition fgt (x y : float64) : bool := flt y x.

(** [func clamp(val, min, max float64) float64]. *)
Definition clamp (val min max : float64) : float64 :=
  if flt val min then min
  else if fgt val max then max
  else val.

(** The [slog.Level] constants of [log.go] of the CoAP server;
    [slog.Level] is an [int].  The HTTP server uses the same names,
    declared in a file of its own, and is read with the same values. *)
Definition LevelDebug : Z := -4.
Definition LevelInfo : Z := 0.
Definition LevelNotice : Z := 1.
Definition LevelWarning : Z := 4.
Definition LevelError : Z := 8.
Definition LevelCritical : Z := 10.
Definition LevelAlert : Z := 12.
Definition LevelEmergency : Z := 14.

(** [strings.ToUpper] on byte strings: the letters [a]..[z] go to
    [A]..[Z], every other byte stays.  The Go library maps the letters
    outside ASCII as well; the severities that reach
    [mapSeverityToLevel] come from the catalog and from
    [tempToSeverityString] and are ASCII. *)
Definition upper_byte (c : ascii) : ascii :=
  let n := nat_of_ascii c in
  if ((97 <=? n) && (n <=? 122))%nat then ascii_of_nat (n - 32) else c.

Fixpoint ToUpper (s : string) : string :=
  match s with
  | EmptyString => EmptyString
  | String c s' => String (upper_byte c) (ToUpper s')
  end.

(** [func mapSeverityToLevel(sev string) slog.Level]. *)
Definition mapSeverityToLevel (sev : string) : Z :=
  let u := ToUpper sev in
  if String.eqb u "DEBUG" then LevelDebug
  else if String.eqb u "INFO" then LevelInfo
  else if String.eqb u "NOTICE" then LevelNotice
  else if String.eqb u "WARNING" then LevelWarning
  else if String.eqb u "ERROR" then LevelError
  else if String.eqb u "CRITICAL" then LevelCritical
  else if String.eqb u "ALERT" then LevelAlert
  else if String.eqb u "EMERGENCY" then LevelEmergency
  else LevelInfo.

(** The severity that [replacer] of [log.go] prints for a level. *)
Definition replacer_severity (level : Z) : string :=
  if level =? LevelDebug then "DEBUG"
  else if level =? LevelInfo then "INFO"
  else if level =? LevelNotice then "NOTICE"
  else if level =? LevelWarning then "WARNING"
  else if level =? LevelError then "ERROR"
  else if level =? LevelCritical then "CRITICAL"
  else if level =? LevelAlert then "ALERT"
  else if level =? LevelEmergency then "EMERGENCY"
  else "DEFAULT".

(** The value type of the [eventDefinitions] map. *)
Record EventDefinition : Type := mkEvent {
  Severity : string;
  Message : string
}.

(** [var eventDefinitions = map[uint8]struct{...}{...}]. *)
Definition eventDefinitions : gmap Z EventDefinition :=
  list_to_map [
    (1, mkEvent "DEBUG" "Dispositivo in fase di inizializzazione");
    (2, mkEvent "DEBUG" "Controllo stato rete");
    (3, mkEvent "DEBUG" "Avvio modulo sensore");
    (4, mkEvent "DEBUG" "Sincronizzazione orologio");
    (5, mkEvent "INFO" "Avvio completato");
    (6, mkEvent "INFO" "Temperatura normale");
    (7, mkEvent "INFO" "CPU sotto soglia");
    (8, mkEvent "INFO" "Heartbeat inviato");
    (9, mkEvent "NOTICE" "Cambio configurazione");
    (10, mkEvent "NOTICE" "Aggiornamento firmware disponibile");
    (11, mkEvent "NOTICE" "Sensore temporaneamente inattivo");
    (12, mkEvent "NOTICE" "Collegamento rete ristabilito");
    (13, mkEvent "WARNING" "Temperatura elevata");
    (14, mkEvent "WARNING" "Consumo CPU sopra la soglia");
    (15, mkEvent "WARNING" "Batteria in esaurimento");
    (16, mkEvent "WARNING" "Perdita pacchetti rilevata");
    (17, mkEvent "ERROR" "Impossibile connettersi al server");
    (18, mkEvent "ERROR" "Errore lettura sensore");
    (19, mkEvent "ERROR" "Timeout nella risposta del server");
    (20, mkEvent "ERROR" "Scrittura su memoria fallita");
    (21, mkEvent "CRITICAL" "Perdita connessione permanente");
    (22, mkEvent "CRITICAL" "Dati corrotti nella memoria");
    (23, mkEvent "ALERT" "Accesso non autorizzato rilevato");
    (24, mkEvent "ALERT" "Possibile attacco DoS in corso");
    (25, mkEvent "EMERGENCY" "Sistema in stato critico - riavvio necessario");
    (26, mkEvent "EMERGENCY" "Errore hardware irreversibile");
    (27, mkEvent "EMERGENCY" "Guasto alimentazione principale")
  ].

(** The conversion [uint8(x)] of an [int64]: the low eight bits. *)
Definition uint8 (x : Z) : Z := x mod 256.

(** [func tempToSeverityString(temp float64) string]. *)
Definition tempToSeverityString (temp : float64) : string :=
  if flt temp 75 then "INFO"
  else if flt temp 85 then "WARNING"
  else if flt temp 95 then "CRITICAL"
  else if fle temp 100 then "EMERGENCY"
  else "INFO".

(** [func tempToMessage(temp float64) string]. *)
Definition tempToMessage (temp : float64) : string :=
  if flt temp 75 then "Temperature is fine"
  else if flt temp 85 then "Temperature rising – monitor closely"
  else if flt temp 95 then "Critical temperature – action needed"
  else if fle temp 100 then "Emergency – device may fail"
  else "Temperature is fine".

(** *** [time.Unix(ts, 0).UTC().Format(time.RFC3339)]

    The Go library's conversion of Unix seconds to a civil date in UTC
    and its layout [2006-01-02T15:04:05Z07:00], which prints [Z] for
    UTC.  The year is printed as [appendInt(b, year, 4)] does: at least
    four digits, a minus sign first when negative. *)

Definition digits (n : Z) : string :=
  NilZero.string_of_uint (N.to_uint (Z.to_N n)).

Fixpoint zeros (n : nat) : string :=
  match n with
  | O => ""
  | S n' => String "0" (zeros n')
  end.

Definition appendInt (x : Z) (width : nat) : string :=
  let d := digits (Z.abs x) in
  (if x <? 0 then "-" else "") ++ zeros (width - String.length d) ++ d.

Record Civil : Type := mkCivil {
  year : Z; month : Z; day : Z; hour : Z; minute : Z; second : Z
}.

Definition civil_of_unix (ts : Z) : Civil :=
  let days := ts / 86400 in
  let secs := ts mod 86400 in
  let z := days + 719468 in
  let era := z / 146097 in
  let doe := z - era * 146097 in
  let yoe := (doe - doe / 1460 + doe / 36524 - doe / 146096) / 365 in
  let doy := doe - (365 * yoe + yoe / 4 - yoe / 100) in
  let mp := (5 * doy + 2) / 153 in
  let d := doy - (153 * mp + 2) / 5 + 1 in
  let m := if mp <? 10 then mp + 3 else mp - 9 in
  let y := yoe + era * 400 + (if m <=? 2 then 1 else 0) in
  {| year := y; month := m; day := d;
     hour := secs / 3600; minute := (secs mod 3600) / 60; second := secs mod 60 |}.

Definition RFC3339 (ts : Z) : string :=
  let c := civil_of_unix ts in
  appendInt (year c) 4 ++ "-" ++ appendInt (month c) 2 ++ "-" ++ appendInt (day c) 2
  ++ "T" ++ appendInt (hour c) 2 ++ ":" ++ appendInt (minute c) 2 ++ ":"
  ++ appendInt (second c) 2 ++ "Z".

(** *** The sinks and the request bodies of the ingestion handlers *)

(** The value of a [slog.Attr]. *)
Inductive Value : Type :=
  | VString (s : string)
  | VFloat (x : float64).

(** One call of [slog.LogAttrs]: level, message and attributes. *)
Record LogRecord : Type := mkLogRecord {
  level : Z;
  msg : string;
  attrs : list (string * Value)
}.

(** One line written with the standard [log] package, by the call that
    wrote it and the values it prints. *)
Inductive Diag : Type :=
  | ReadBodyError
  | DecodeError
  | InvalidEntry (entry : list Z)
  | UnknownEventID (id : Z).

(** A request body as the handler sees it through the codec: it cannot
    be read, it does not decode into the expected record, or it decodes
    into [v]. *)
Inductive Body (T : Type) : Type :=
  | ReadFailed
  | Malformed
  | Decoded (v : T).
Arguments ReadFailed {T}.
Arguments Malformed {T}.
Arguments Decoded {T} v.

(** [type IncomingLogBatch struct]. *)
Record IncomingLogBatch : Type := mkBatch {
  DeviceID : string;
  Logs : list (list Z)
}.

(** The state the handlers of one server act on: the metric cache
    [globalMetricCache] (under [cacheMu]), the records handed to [slog]
    and the lines handed to [log], both oldest first. *)
Record Server (M : Type) : Type := mkServer {
  cache : gmap string M;
  records : list LogRecord;
  diag : list Diag
}.
Arguments mkServer {M} _ _ _.
Arguments cache {M} _.
Arguments records {M} _.
Arguments diag {M} _.

Definition emit {M : Type} (r : LogRecord) (s : Server M) : Server M :=
  {| cache := cache s; records := records s ++ [r]; diag := diag s |}.

Definition warn {M : Type} (d : Diag) (s : Server M) : Server M :=
  {| cache := cache s; records := records s; diag := diag s ++ [d] |}.

(** The body of the loop [for _, entry := range batch.Logs] of
    [handleBatchLog] and of [handleCoapBatchLog] (the same text). *)
Definition logEntry {M : Type} (deviceID : string) (s : Server M) (entry : list Z) : Server M :=
  match entry with
  | [e0; e1] =>
    let id := uint8 e0 in
    let ts := e1 in
    match eventDefinitions !! id with
    | None => warn (UnknownEventID id) s
    | Some def =>
      emit {| level := mapSeverityToLevel (Severity def);
              msg := Message def;
              attrs := [("device_id", VString deviceID);
                        ("timestamp", VString (RFC3339 ts));
                        ("type", VString "devicelog")] |} s
    end
  | _ => warn (InvalidEntry entry) s
  end.

Definition logEntries {M : Type} (batch : IncomingLogBatch) (s : Server M) : Server M :=
  foldl (logEntry (DeviceID batch)) s (Logs batch).

(** ** The HTTP server ([http-google/server]) *)

Module HttpServer.

Record GeoPosition : Type := mkGeo {
  Latitude : float64;
  Longitude : float64;
  Altitude : float64
}.

Record ExternalSensors : Type := mkSensors {
  ThermometerC : float64;
  BarometerHPa : float64;
  HygrometerRH : float64;
  AnemometerMPS : float64
}.

(** [type Metrics struct] of [metricgraphics.go]; [Timestamp] in
    nanoseconds since the epoch. *)
Record Metrics : Type := mkMetrics {
  DeviceID : string;
  GeoPosition_ : GeoPosition;
  Timestamp : Z;
  MCUUsagePercent : float64;
  MCUTempC : float64;
  ExternalSensors_ : ExternalSensors
}.

Definition StatusOK : Z := 200.
Definition StatusCreated : Z := 201.
Definition StatusAccepted : Z := 202.
Definition StatusBadRequest : Z := 400.

(** [func handleBatchLog(w http.ResponseWriter, r *http.Request)]. *)
Definition handleBatchLog (s : Server Metrics) (body : Body IncomingLogBatch)
  : Server Metrics * Z :=
  match body with
  | Decoded batch => (logEntries batch s, StatusOK)
  | _ => (s, StatusBadRequest)
  end.

(** [func updateMetricCache(m Metrics)]. *)
Definition updateMetricCache (m : Metrics) (s : Server Metrics) : Server Metrics :=
  {| cache := <[DeviceID m := m]> (cache s); records := records s; diag := diag s |}.

(** [func handleMetrics(w http.ResponseWriter, r *http.Request)]. *)
Definition handleMetrics (s : Server Metrics) (body : Body Metrics)
  : Server Metrics * Z :=
  match body with
  | Decoded m =>
    let s1 := updateMetricCache m s in
    let severityStr := tempToSeverityString (MCUTempC m) in
    let level := mapSeverityToLevel severityStr in
    (emit {| level := level;
             msg := tempToMessage (MCUTempC m);
             attrs := [("device_id", VString (DeviceID m));
                       ("value", VFloat (MCUTempC m));
                       ("type", VString "devicemetric")] |} s1,
     StatusAccepted)
  | _ => (warn DecodeError s, StatusBadRequest)
  end.

Inductive Gauge : Type :=
  | MCUUsageGauge | MCUTempCGauge | ThermometerCGauge
  | BarometerHPaGauge | HygrometerRHGauge | AnemometerMPSGauge.

(** One call of [observer.ObserveFloat64]. *)
Record Observation : Type := mkObservation {
  gauge : Gauge;
  observed : float64;
  labels : list (string * Value)
}.

(** The body of the loop of the callback of [registerObservers]. *)
Definition observe (m : Metrics) : list Observation :=
  let labels := [("device_id", VString (DeviceID m));
                 ("latitude", VFloat (Latitude (GeoPosition_ m)));
                 ("longitude", VFloat (Longitude (GeoPosition_ m)));
                 ("altitude", VFloat (Altitude (GeoPosition_ m)))] in
  [ mkObservation MCUUsageGauge (MCUUsagePercent m) labels;
    mkObservation MCUTempCGauge (MCUTempC m) labels;
    mkObservation ThermometerCGauge (ThermometerC (ExternalSensors_ m)) labels;
    mkObservation BarometerHPaGauge (BarometerHPa (ExternalSensors_ m)) labels;
    mkObservation HygrometerRHGauge (HygrometerRH (ExternalSensors_ m)) labels;
    mkObservation AnemometerMPSGauge (AnemometerMPS (ExternalSensors_ m)) labels ].

(** The callback registered by [registerObservers]: one pass over
    [globalMetricCache] under the read lock.  Go leaves the order of
    the pass over a map open; [map_to_list] fixes one. *)
Definition callback (s : Server Metrics) : list Observation :=
  flat_map (fun kv => observe (snd kv)) (map_to_list (cache s)).

End HttpServer.

(** ** The CoAP server ([coap-local/server]) *)

Module CoapServer.

(** [type Metrics struct]; [Timestamp] in nanoseconds since the epoch. *)
Record Metrics : Type := mkMetrics {
  DeviceID : string;
  Timestamp : Z;
  CPUPercent : float64;
  MemUsedMB : float64;
  TempC : float64;
  DiskUsagePercent : float64;
  DiskReadMBps : float64;
  DiskWriteMBps : float64
}.

(** The response codes of [go-coap] that the handlers set. *)
Inductive Code : Type :=
  | Created      (* 2.01 *)
  | Changed      (* 2.04 *)
  | BadRequest.  (* 4.00 *)

(** [func handleCoapBatchLog(w mux.ResponseWriter, r *mux.Message)]. *)
Definition handleCoapBatchLog (s : Server Metrics) (body : Body IncomingLogBatch)
  : Server Metrics * Code :=
  match body with
  | ReadFailed => (warn ReadBodyError s, BadRequest)
  | Malformed => (warn DecodeError s, BadRequest)
  | Decoded batch => (logEntries batch s, Created)
  end.

(** [func updateMetricCache(m Metrics)]. *)
Definition updateMetricCache (m : Metrics) (s : Server Metrics) : Server Metrics :=
  {| cache := <[DeviceID m := m]> (cache s); records := records s; diag := diag s |}.

(** [func handleCoapMetrics(w mux.ResponseWriter, r *mux.Message)]. *)
Definition handleCoapMetrics (s : Server Metrics) (body : Body Metrics)
  : Server Metrics * Code :=
  match body with
  | ReadFailed => (warn ReadBodyError s, BadRequest)
  | Malformed => (warn DecodeError s, BadRequest)
  | Decoded m =>
    let s1 := updateMetricCache m s in
    let severityStr := tempToSeverityString (TempC m) in
    let level := mapSeverityToLevel severityStr in
    (emit {| level := level;
             msg := tempToMessage (TempC m);
             attrs := [("device_id", VString (DeviceID m));
                       ("value", VFloat (TempC m));
                       ("type", VString "devicemetric")] |} s1,
     Changed)
  end.

Inductive Gauge : Type :=
  | cpuGauge | tempGauge | memGauge
  | diskUsageGauge | diskReadGauge | diskWriteGauge.

(** One call of [observer.ObserveFloat64]. *)
Record Observation : Type := mkObservation {
  gauge : Gauge;
  observed : float64;
  labels : list (string * Value)
}.

(** The body of the loop of the callback of [registerObservers]. *)
Definition observe (m : Metrics) : list Observation :=
  let labels := [("device_id", VString (DeviceID m))] in
  [ mkObservation cpuGauge (CPUPercent m) labels;
    mkObservation tempGauge (TempC m) labels;
    mkObservation memGauge (MemUsedMB m) labels;
    mkObservation diskUsageGauge (DiskUsagePercent m) labels;
    mkObservation diskReadGauge (DiskReadMBps m) labels;
    mkObservation diskWriteGauge (DiskWriteMBps m) labels ].

(** The callback registered by [registerObservers]: one pass over
    [globalMetricCache] under the read lock.  Go leaves the order of
    the pass over a map open; [map_to_list] fixes one. *)
Definition callback (s : Server Metrics) : list Observation :=
  flat_map (fun kv => observe (snd kv)) (map_to_list (cache s)).

End CoapServer.

(** ** Bounded log buffer of a simulated device (the CoAP client's
       [LogSender]) *)

Module LogSender.

(** [type LogEntryCompact [2]int64]: event identifier, Unix timestamp. *)
Definition LogEntryCompact : Type := (Z * Z)%type.

(** The fields of [LogSender] that the buffer operations read or
    write.  [cacheMutex] guards every access to [logCache]. *)
Record LogSender : Type := mkLogSender {
  deviceID : string;
  logCache : list LogEntryCompact
}.

(** [NewLogSender] leaves [logCache] at its zero value, the nil slice. *)
Definition NewLogSender (id : string) : LogSender :=
  {| deviceID := id; logCache := [] |}.

Definition capacity : nat := 200.

(** [AddLog]: append, then keep the last 200 entries when there are
    more ([s.logCache = s.logCache[len(s.logCache)-200:]]). *)
Definition AddLog (s : LogSender) (entry : LogEntryCompact) : LogSender :=
  let c := logCache s ++ [entry] in
  {| deviceID := deviceID s;
     logCache := if (capacity <? length c)%nat
                 then drop (length c - capacity) c
                 else c |}.

(** [addEvent(id uint8)] at the Unix time [ts]: an identifier that the
    catalog does not define is dropped, any other is appended with its
    timestamp ([LogEntryCompact{int64(id), ts}]). *)
Definition addEvent (s : LogSender) (id : Z) (ts : Z) : LogSender :=
  match eventDefinitions !! id with
  | None => s
  | Some _ => AddLog s (id, ts)
  end.

(** The payload of one CoAP POST issued by [Send]. *)
Record Payload : Type := mkPayload {
  device_id : string;
  logs : list LogEntryCompact
}.

(** [Send]: nothing goes on the wire for an empty batch, otherwise one
    POST carrying the device identifier and the entries. *)
Definition Send (s : LogSender) (entries : list LogEntryCompact) : list Payload :=
  match entries with
  | [] => []
  | _ => [ {| device_id := deviceID s; logs := entries |} ]
  end.

(** What one call of [SendBatch] did: the sender afterwards, the
    entries taken out of the buffer, and the POSTs issued. *)
Record Drained : Type := mkDrained {
  sender : LogSender;
  entries : list LogEntryCompact;
  posts : list Payload
}.

(** [SendBatch].  [batchSize] is a Go [int]; [make] with a negative
    length panics, which is [None] here. *)
Definition SendBatch (s : LogSender) (batchSize : Z) : option Drained :=
  match logCache s with
  | [] => Some {| sender := s; entries := []; posts := [] |}
  | _ =>
    if Z.of_nat (length (logCache s)) >? batchSize then
      if batchSize <? 0 then None
      else
        let n := Z.to_nat batchSize in
        let es := take n (logCache s) in
        let s' := {| deviceID := deviceID s; logCache := drop n (logCache s) |} in
        Some {| sender := s'; entries := es; posts := Send s' es |}
    else
      let es := logCache s in
      let s' := {| deviceID := deviceID s; logCache := [] |} in
      Some {| sender := s'; entries := es; posts := Send s' es |}
  end.

(** The buffer after a run of appends. *)
Definition AddLogs (s : LogSender) (es : list LogEntryCompact) : LogSender :=
  foldl AddLog s es.

(** The last [n] elements of a list. *)
Definition last_n {A : Type} (n : nat) (l : list A) : list A :=
  drop (length l - n) l.

(** The entries [[1, 1001]; ...; [n, 1000 + n]], for examples. *)
Definition numbered (n : nat) : list LogEntryCompact :=
  map (fun i => (Z.of_nat i, 1000 + Z.of_nat i)) (seq 1 n).

End LogSender.

(** ** The metric generators of the two clients *)

(** [time.Duration] and [time.Time] are [int64] counts of nanoseconds. *)
Definition Minute : Z := 60 * 1000000000.
Definition minInt64 : Z := - 2 ^ 63.
Definition maxInt64 : Z := 2 ^ 63 - 1.

(** [int64] addition. *)
Definition add64 (a b : Z) : Z := (a + b + 2 ^ 63) mod 2 ^ 64 - 2 ^ 63.

(** [time.Since(t)] read at the instant [now]: [now.Sub(t)], which
    saturates at the ends of the [Duration] range. *)
Definition Since (now t : Z) : Z := Z.max minInt64 (Z.min maxInt64 (now - t)).

(** [distuv.Normal{Mu, Sigma}.Rand()] of gonum, [rnd*Sigma + Mu], on
    the standard normal variate [rnd] that the source returned. *)
Definition Normal_Rand (Mu Sigma rnd : float64) : float64 := rnd * Sigma + Mu.

(** The variates that one call of [GenerateMetrics] may read from the
    random source, one for each distribution of the function: the
    temperature one, the usage one ([cpuDist], [mcuUsageDist]) and the
    four others in the order of their declaration ([memDist],
    [diskUsageDist], [readDist], [writeDist] in the CoAP client;
    [thermometerDist], [barometerDist], [hygrometerDist],
    [anemometerDist] in the HTTP client). *)
Record Draws : Type := mkDraws {
  rnd_temp : float64;
  rnd_usage : float64;
  rnd_a : float64;
  rnd_b : float64;
  rnd_c : float64;
  rnd_d : float64
}.

(** What one call of [SendMetric] reads from its environment: the
    variate of [maybeTriggerAnomaly], the value of [rand.Float64()] and
    the instant of [time.Now()] in [StartAnomaly], the instants read by
    [GenerateMetrics], and its variates. *)
Record Tick : Type := mkTick {
  trigger : float64;
  uniform : float64;
  started : Z;
  sampled : Z;
  stamped : Z;
  draws : Draws
}.

Module CoapClient.

Export CoapServer (Metrics, mkMetrics, DeviceID, Timestamp, CPUPercent, MemUsedMB,
                   TempC, DiskUsagePercent, DiskReadMBps, DiskWriteMBps).

(** The fields of [MetricSender] that the generator reads or writes. *)
Record MetricSender : Type := mkMetricSender {
  deviceID : string;
  anomalyStartTime : Z;
  anomalyDuration : Z;
  anomalyHoldDuration : Z;
  anomalyActive : bool;
  baseTemp : float64
}.

(** [NewMetricSender]: the anomaly fields start at their zero values. *)
Definition NewMetricSender (id : string) : MetricSender :=
  {| deviceID := id; anomalyStartTime := 0; anomalyDuration := 0;
     anomalyHoldDuration := 0; anomalyActive := false; baseTemp := 0 |}.

(** [StartAnomaly(duration)] at the instant [now], with [u] the value
    of [rand.Float64()]. *)
Definition StartAnomaly (s : MetricSender) (duration : Z) (now : Z) (u : float64)
  : MetricSender :=
  {| deviceID := deviceID s;
     anomalyStartTime := now;
     anomalyDuration := duration;
     anomalyHoldDuration := 3 * Minute;
     anomalyActive := true;
     baseTemp := 30 + u * 35 |}.

(** [maybeTriggerAnomaly(s)], with [z] the value of [normal.Rand()]. *)
Definition maybeTriggerAnomaly (s : MetricSender) (z : float64) (now : Z) (u : float64)
  : MetricSender :=
  if anomalyActive s then s
  else if fgt z 2 then StartAnomaly s (Minute * 4) now u
  else s.

Definition endAnomaly (s : MetricSender) : MetricSender :=
  {| deviceID := deviceID s;
     anomalyStartTime := anomalyStartTime s;
     anomalyDuration := anomalyDuration s;
     anomalyHoldDuration := anomalyHoldDuration s;
     anomalyActive := false;
     baseTemp := baseTemp s |}.

(** The temperature channel of [GenerateMetrics]: the sender afterwards
    and [temp]. *)
Definition generateTemp (s : MetricSender) (now : Z) (d : Draws) : MetricSender * float64 :=
  if anomalyActive s then
    let elapsed := Since now (anomalyStartTime s) in
    let totalDuration := add64 (anomalyDuration s) (anomalyHoldDuration s) in
    if elapsed >? totalDuration then
      (endAnomaly s, clamp (Normal_Rand 45 (5 # 2) (rnd_temp d)) 30 65)
    else
      let maxTemp : float64 := 100%Q in
      if elapsed <=? anomalyDuration s then
        let progress := (inject_Z elapsed / inject_Z (anomalyDuration s))%Q in
        (s, (baseTemp s + progress * (maxTemp - baseTemp s))%Q)
      else
        (s, maxTemp)
  else
    (s, clamp (Normal_Rand 45 (5 # 2) (rnd_temp d)) 30 65).

(** [func (s *MetricSender) GenerateMetrics() Metrics], with [now] the
    instant read by [time.Since] and [stamp] the one read by
    [time.Now]. *)
Definition GenerateMetrics (s : MetricSender) (now stamp : Z) (d : Draws)
  : MetricSender * Metrics :=
  let '(s', temp) := generateTemp s now d in
  (s', {| DeviceID := deviceID s;
          Timestamp := stamp;
          CPUPercent := clamp (Normal_Rand 40 10 (rnd_usage d)) 0 100;
          MemUsedMB := clamp (Normal_Rand 2048 512 (rnd_a d)) 0 4096;
          TempC := temp;
          DiskUsagePercent := clamp (Normal_Rand 60 20 (rnd_b d)) 0 100;
          DiskReadMBps := clamp (Normal_Rand 3 1 (rnd_c d)) 0 10;
          DiskWriteMBps := clamp (Normal_Rand 3 1 (rnd_d d)) 0 10 |}).

(** The effect of [SendMetric] on the sender, and the sample it
    marshals and posts. *)
Definition SendMetric (s : MetricSender) (k : Tick) : MetricSender * Metrics :=
  GenerateMetrics (maybeTriggerAnomaly s (trigger k) (started k) (uniform k))
                  (sampled k) (stamped k) (draws k).

(** The sender after the calls of [SendMetric] that read [ks]. *)
Definition run (s : MetricSender) (ks : list Tick) : MetricSender :=
  foldl (fun s k => fst (SendMetric s k)) s ks.

End CoapClient.

Module HttpClient.

Export HttpServer (GeoPosition, mkGeo, Latitude, Longitude, Altitude,
                   ExternalSensors, mkSensors, ThermometerC, BarometerHPa,
                   HygrometerRH, AnemometerMPS,
                   Metrics, mkMetrics, DeviceID, GeoPosition_, Timestamp,
                   MCUUsagePercent, MCUTempC, ExternalSensors_).

(** [type DeviceConfig struct], read from the devices file. *)
Record DeviceConfig : Type := mkDeviceConfig {
  ConfigDeviceID : string;
  ConfigGeoPosition : GeoPosition;
  BaseMCUTemp : float64;
  BaseThermometer : float64;
  BaseBarometer : float64;
  BaseHygrometer : float64;
  BaseAnemometer : float64
}.

(** The fields of [MetricSender] that the generator reads or writes. *)
Record MetricSender : Type := mkMetricSender {
  Config : DeviceConfig;
  anomalyStartTime : Z;
  anomalyDuration : Z;
  anomalyHoldDuration : Z;
  anomalyActive : bool
}.

Definition NewMetricSender (config : DeviceConfig) : MetricSender :=
  {| Config := config; anomalyStartTime := 0; anomalyDuration := 0;
     anomalyHoldDuration := 0; anomalyActive := false |}.

(** [StartAnomaly(duration)] at the instant [now]. *)
Definition StartAnomaly (s : MetricSender) (duration : Z) (now : Z) : MetricSender :=
  {| Config := Config s;
     anomalyStartTime := now;
     anomalyDuration := duration;
     anomalyHoldDuration := 3 * Minute;
     anomalyActive := true |}.

(** [maybeTriggerAnomaly(s)], with [z] the value of [normal.Rand()]. *)
Definition maybeTriggerAnomaly (s : MetricSender) (z : float64) (now : Z) : MetricSender :=
  if anomalyActive s then s
  else if fgt z 2 then StartAnomaly s (Minute * 4) now
  else s.

Definition endAnomaly (s : MetricSender) : MetricSender :=
  {| Config := Config s;
     anomalyStartTime := anomalyStartTime s;
     anomalyDuration := anomalyDuration s;
     anomalyHoldDuration := anomalyHoldDuration s;
     anomalyActive := false |}.

(** The MCU temperature channel of [GenerateMetrics]: the sender
    afterwards and [mcuTemp]. *)
Definition generateTemp (s : MetricSender) (now : Z) (d : Draws) : MetricSender * float64 :=
  if anomalyActive s then
    let elapsed := Since now (anomalyStartTime s) in
    let totalDuration := add64 (anomalyDuration s) (anomalyHoldDuration s) in
    if elapsed >? totalDuration then
      (endAnomaly s, clamp (Normal_Rand (BaseMCUTemp (Config s)) 3 (rnd_temp d)) 20 70)
    else
      let maxTemp : float64 := 100%Q in
      if elapsed <=? anomalyDuration s then
        let progress := (inject_Z elapsed / inject_Z (anomalyDuration s))%Q in
        (s, (BaseMCUTemp (Config s) + progress * (maxTemp - BaseMCUTemp (Config s)))%Q)
      else
        (s, maxTemp)
  else
    (s, clamp (Normal_Rand (BaseMCUTemp (Config s)) 3 (rnd_temp d)) 20 70).

(** [func (s *MetricSender) GenerateMetrics() Metrics], with [now] the
    instant read by [time.Since] and [stamp] the one read by
    [time.Now]. *)
Definition GenerateMetrics (s : MetricSender) (now stamp : Z) (d : Draws)
  : MetricSender * Metrics :=
  let '(s', mcuTemp) := generateTemp s now d in
  (s', {| DeviceID := ConfigDeviceID (Config s);
          GeoPosition_ := ConfigGeoPosition (Config s);
          Timestamp := stamp;
          MCUUsagePercent := clamp (Normal_Rand 45 15 (rnd_usage d)) 0 100;
          MCUTempC := mcuTemp;
          ExternalSensors_ :=
            {| ThermometerC :=
                 clamp (Normal_Rand (BaseThermometer (Config s)) 2 (rnd_a d)) (-40) 60;
               BarometerHPa :=
                 clamp (Normal_Rand (BaseBarometer (Config s)) 5 (rnd_b d)) 950 1050;
               HygrometerRH :=
                 clamp (Normal_Rand (BaseHygrometer (Config s)) 8 (rnd_c d)) 10 100;
               AnemometerMPS :=
                 clamp (Normal_Rand (BaseAnemometer (Config s)) (3 # 2) (rnd_d d)) 0 25 |} |}).

(** The effect of [SendMetric] on the sender, and the sample it
    marshals and posts. *)
Definition SendMetric (s : MetricSender) (k : Tick) : MetricSender * Metrics :=
  GenerateMetrics (maybeTriggerAnomaly s (trigger k) (started k))
                  (sampled k) (stamped k) (draws k).

(** The sender after the calls of [SendMetric] that read [ks]. *)
Definition run (s : MetricSender) (ks : list Tick) : MetricSender :=
  foldl (fun s k => fst (SendMetric s k)) s ks.

End HttpClient.

(** ** Notions of the specification

    The vocabulary in which the properties below are stated. *)

(** The eight severities, in the ascending order of the
    specification. *)
Definition severities : list string :=
  ["DEBUG"; "INFO"; "NOTICE"; "WARNING"; "ERROR"; "CRITICAL"; "ALERT"; "EMERGENCY"].


(** The record that the log handlers emit for the catalog entry [def]
    on behalf of [deviceID] at the Unix time [ts]. *)
Definition deviceLog (deviceID : string) (def : EventDefinition) (ts : Z) : LogRecord :=
  {| level := mapSeverityToLevel (Severity def);
     msg := Message def;
     attrs := [("device_id", VString deviceID);
               ("timestamp", VString (RFC3339 ts));
               ("type", VString "devicelog")] |}.

(** What a log handler owes one entry of a batch: the record to emit,
    if any, and the warning to write, if any.  The identifier looked up
    in the catalog is the first component reduced modulo 256. *)
Definition emitted (deviceID : string) (entry : list Z) : option LogRecord :=
  match entry with
  | [id; ts] => (fun def => deviceLog deviceID def ts) <$> eventDefinitions !! (id mod 256)
  | _ => None
  end.

Definition warned (entry : list Z) : option Diag :=
  match entry with
  | [id; ts] =>
    match eventDefinitions !! (id mod 256) with
    | Some _ => None
    | None => Some (UnknownEventID (id mod 256))
    end
  | _ => Some (InvalidEntry entry)
  end.


(** Requests and states for the examples. *)
Definition emptyServer {M : Type} : Server M :=
  {| cache := ∅; records := []; diag := [] |}.

Definition batch261 : IncomingLogBatch :=
  {| DeviceID := "d1"; Logs := [[261; 1700000000]] |}.

Definition batchMixed : IncomingLogBatch :=
  {| DeviceID := "d1";
     Logs := [[5; 1700000000]; [99; 1700000000]; [7]; [-251; 0]; [21; 1700000001; 3]] |}.

Definition coapSample (dev : string) (temp : float64) : CoapServer.Metrics :=
  {| CoapServer.DeviceID := dev; CoapServer.Timestamp := 1700000000000000000;
     CoapServer.CPUPercent := 40; CoapServer.MemUsedMB := 2048;
     CoapServer.TempC := temp; CoapServer.DiskUsagePercent := 60;
     CoapServer.DiskReadMBps := 3; CoapServer.DiskWriteMBps := 3 |}.

Definition httpSample (dev : string) (temp : float64) : HttpServer.Metrics :=
  {| HttpServer.DeviceID := dev;
     HttpServer.GeoPosition_ := HttpServer.mkGeo (4546 # 100) (919 # 100) 120;
     HttpServer.Timestamp := 1700000000000000000;
     HttpServer.MCUUsagePercent := 45;
     HttpServer.MCUTempC := temp;
     HttpServer.ExternalSensors_ := HttpServer.mkSensors 20 1013 50 3 |}.







(** The linear ramp of the specification from [base] towards the
    ceiling 100, at [elapsed] of [rampDuration]. *)
Definition ramp (base : float64) (elapsed rampDuration : Z) : float64 :=
  (base + (inject_Z elapsed / inject_Z rampDuration) * (100 - base))%Q.

(** The values of [rand.Float64()] lie in [[0, 1)]. *)
Definition unit_interval (ks : list Tick) : Prop :=
  Forall (fun k => (0 <= uniform k /\ uniform k < 1)%Q) ks.

Definition noDraws : Draws := mkDraws 0 0 0 0 0 0.




(** What holds of a CoAP sender at every call of [SendMetric]. *)
Definition coap_inv (s : CoapClient.MetricSender) : Prop :=
  (CoapClient.baseTemp s <= 65)%Q /\
  (CoapClient.anomalyActive s = true ->
   CoapClient.anomalyDuration s = Minute * 4 /\
   CoapClient.anomalyHoldDuration s = 3 * Minute /\
   (30 <= CoapClient.baseTemp s)%Q).



(** The batch that the server decodes from a payload of the client:
    the codec carries a [[2]int64] as a sequence of two integers. *)
Definition wire (p : LogSender.Payload) : IncomingLogBatch :=
  {| DeviceID := LogSender.device_id p;
     Logs := map (fun e => [fst e; snd e]) (LogSender.logs p) |}.

(** Every entry of the buffer carries an identifier of the catalog. *)
Definition catalogued (c : list LogSender.LogEntryCompact) : Prop :=
  Forall (fun e => is_Some (eventDefinitions !! fst e)) c.

(** ** Runs of the operations on one buffer *)

(** One operation on a device's buffer: [AddLog] of an entry (by the
    event generator) or [SendBatch] with a bound (by the batch tick). *)
Inductive BufferOp : Type :=
  | OpAdd (e : LogSender.LogEntryCompact)
  | OpDrain (batchSize : Z).

(** The entries that the operations append, in order. *)
Fixpoint appended (ops : list BufferOp) : list LogSender.LogEntryCompact :=
  match ops with
  | [] => []
  | OpAdd e :: ops' => e :: appended ops'
  | OpDrain _ :: ops' => appended ops'
  end.

(** The number of entries that [AddLog s e] drops from the front. *)
Definition evictedBy (s : LogSender.LogSender) (e : LogSender.LogEntryCompact) : nat :=
  length (LogSender.logCache s) + 1 - length (LogSender.logCache (LogSender.AddLog s e)).

(** The outcome of a run: the sender at the end, the batches taken
    out by the drains (first drain first), the payloads posted, and the
    number of entries evicted by the appends. *)
Record BufferRun : Type := mkBufferRun {
  final : LogSender.LogSender;
  batches : list (list LogSender.LogEntryCompact);
  posted : list LogSender.Payload;
  evicted : nat
}.

(** The operations applied in order; [None] when a drain panics. *)
Fixpoint runBuffer (s : LogSender.LogSender) (ops : list BufferOp) : option BufferRun :=
  match ops with
  | [] => Some {| final := s; batches := []; posted := []; evicted := 0 |}
  | OpAdd e :: ops' =>
    match runBuffer (LogSender.AddLog s e) ops' with
    | None => None
    | Some r =>
      Some {| final := final r; batches := batches r; posted := posted r;
              evicted := evictedBy s e + evicted r |}
    end
  | OpDrain n :: ops' =>
    match LogSender.SendBatch s n with
    | None => None
    | Some d =>
      match runBuffer (LogSender.sender d) ops' with
      | None => None
      | Some r =>
        Some {| final := final r;
                batches := LogSender.entries d :: batches r;
                posted := LogSender.posts d ++ posted r;
                evicted := evicted r |}
      end
    end
  end.

(** The bounds of the drains of a run are not negative. *)
Definition drains_nonneg (ops : list BufferOp) : Prop :=
  Forall (fun op => match op with OpDrain n => 0 <= n | OpAdd _ => True end) ops.

(** A run for the examples: five appends, a drain of two, an append, a
    drain of ten and a drain on the emptied buffer. *)
Definition sampleOps : list BufferOp :=
  map OpAdd (LogSender.numbered 5)
  ++ [OpDrain 2; OpAdd (6, 1006); OpDrain 10; OpDrain 10].

(** The sender after the event generator called [addEvent] with the
    identifiers [events] at their instants, first to last. *)
Definition addEvents (s : LogSender.LogSender) (events : list (Z * Z)) : LogSender.LogSender :=
  foldl (fun s ev => LogSender.addEvent s (fst ev) (snd ev)) s events.

(** The record that the server owes the entry [e] of the device [dev]. *)
Definition logged_as (dev : string) (e : LogSender.LogEntryCompact) (r : LogRecord) : Prop :=
  exists def : EventDefinition,
    eventDefinitions !! fst e = Some def /\ r = deviceLog dev def (snd e).

(** ** The attribute replacer of [log.go] *)

(** The value of an attribute as [replacer] tells it apart: a
    [slog.Level], or anything else. *)
Inductive AnyValue : Type :=
  | LevelValue (l : Z)
  | TimeValue (t : Z)
  | OtherValue (v : Value).

(** [slog.Attr]. *)
Record Attr : Type := mkAttr {
  Key : string;
  AttrValue : AnyValue
}.

(** The keys of the built-in attributes, [slog.LevelKey],
    [slog.TimeKey] and [slog.MessageKey]. *)
Definition LevelKey : string := "level".
Definition TimeKey : string := "time".
Definition MessageKey : string := "msg".

(** [func replacer(groups []string, a slog.Attr) slog.Attr]. *)
Definition replacer (groups : list string) (a : Attr) : Attr :=
  if String.eqb (Key a) LevelKey then
    {| Key := "severity";
       AttrValue := match AttrValue a with
                    | LevelValue level => OtherValue (VString (replacer_severity level))
                    | v => v
                    end |}
  else if String.eqb (Key a) TimeKey then
    {| Key := "timestamp"; AttrValue := AttrValue a |}
  else if String.eqb (Key a) MessageKey then
    {| Key := "messages"; AttrValue := AttrValue a |}
  else a.

(** The eight levels of [log.go]. *)
Definition levels : list Z :=
  [LevelDebug; LevelInfo; LevelNotice; LevelWarning;
   LevelError; LevelCritical; LevelAlert; LevelEmergency].

(** The message that goes with a severity of a metric record. *)
Definition severityMessage (sev : string) : string :=
  if String.eqb sev "WARNING" then "Temperature rising – monitor closely"
  else if String.eqb sev "CRITICAL" then "Critical temperature – action needed"
  else if String.eqb sev "EMERGENCY" then "Emergency – device may fail"
  else "Temperature is fine".

(** ** Runs of requests on the CoAP server *)

(** A request as [registerCoapRoutes] dispatches it: on /batchLog to
    [handleCoapBatchLog], on /batchMetric to [handleCoapMetrics], with
    the body as that handler's decoder sees it. *)
Inductive CoapRequest : Type :=
  | PostBatchLog (body : Body IncomingLogBatch)
  | PostBatchMetric (body : Body CoapServer.Metrics).

Definition coapServe (s : Server CoapServer.Metrics) (req : CoapRequest)
  : Server CoapServer.Metrics * CoapServer.Code :=
  match req with
  | PostBatchLog body => CoapServer.handleCoapBatchLog s body
  | PostBatchMetric body => CoapServer.handleCoapMetrics s body
  end.

(** The server after the requests, served one after the other, and
    the responses in the order of the requests. *)
Fixpoint coapServeAll (s : Server CoapServer.Metrics) (reqs : list CoapRequest)
  : Server CoapServer.Metrics * list CoapServer.Code :=
  match reqs with
  | [] => (s, [])
  | req :: reqs' =>
    let '(s1, code) := coapServe s req in
    let '(s2, codes) := coapServeAll s1 reqs' in
    (s2, code :: codes)
  end.




Definition sampleRequests : list CoapRequest :=
  [ PostBatchMetric (Decoded (coapSample "d1" 90));
    PostBatchLog (Decoded batchMixed);
    PostBatchMetric Malformed;
    PostBatchMetric (Decoded (coapSample "d2" 40));
    PostBatchMetric (Decoded (coapSample "d1" 50));
    PostBatchLog ReadFailed ].

(** A tick whose trigger variate exceeds 2, read at the instant 0 with
    [rand.Float64() = 1/2], sampled one minute later. *)
Definition triggerTick : Tick :=
  {| trigger := 3; uniform := 1 # 2; started := 0; sampled := Minute;
     stamped := Minute; draws := noDraws |}.

(** ** The event generator of the HTTP client
       ([randlogeventgenerator.go]) *)

(** [int64] subtraction. *)
Definition sub64 (a b : Z) : Z := (a - b + 2 ^ 63) mod 2 ^ 64 - 2 ^ 63.

Module EventGenerator.

(** [type EventIntervalConfig struct]: two [time.Duration]. *)
Record EventIntervalConfig : Type := mkInterval {
  Min : Z;
  Max : Z
}.

(** [rand.Int63n(n)] and [rand.Intn(n)] of [math/rand]: a panic for
    [n <= 0], otherwise the remainder modulo [n] of the value [v] that
    the function accepts from the source. *)
Definition Int63n (n v : Z) : option Z :=
  if n <=? 0 then None else Some (v mod n).

Definition Intn (n v : Z) : option Z :=
  if n <=? 0 then None else Some (v mod n).

(** [randomInterval] of the loop of [startRandomEventGenerator];
    [None] is the panic of [rand.Int63n]. *)
Definition randomInterval (config : EventIntervalConfig) (v : Z) : option Z :=
  let intervalRange := sub64 (Max config) (Min config) in
  match Int63n intervalRange v with
  | None => None
  | Some r => Some (add64 (Min config) r)
  end.

(** [eventIDs[rand.Intn(len(eventIDs))]]. *)
Definition randomEventID (eventIDs : list Z) (v : Z) : option Z :=
  match Intn (Z.of_nat (length eventIDs)) v with
  | None => None
  | Some i => eventIDs !! Z.to_nat i
  end.

End EventGenerator.

(** The slice [eventIDs] that the generator fills by ranging over
    [eventDefinitions]: the keys of the catalog, in the order in which
    the map happened to yield them. *)
Definition catalog_keys (eventIDs : list Z) : Prop :=
  eventIDs ≡ₚ (map_to_list eventDefinitions).*1.

(** ** The alert mail function ([package email]) *)

Module Email.

(** [type TrendFlag struct]. *)
Record TrendFlag : Type := mkTrendFlag {
  DeviceID : string;
  TrendStatus : string;
  Timestamp1 : string;
  Timestamp2 : string;
  Timestamp3 : string
}.

(** [func validateAlert(alert *TrendFlag) error]; [None] is [nil]. *)
Definition validateAlert (alert : TrendFlag) : option string :=
  if String.eqb (DeviceID alert) "" then Some "device_id is required"
  else if String.eqb (TrendStatus alert) "" then Some "trend_status is required"
  else None.

(** What [sendEmailAlert] did: the number of calls of
    [smtp.SendMail], the seconds slept between them, and the error
    returned ([None] is [nil]). *)
Record Sent : Type := mkSent {
  calls : nat;
  slept : Z;
  err : option string
}.

(** The loop [for i := 0; i < 3; i++] of [sendEmailAlert] from the
    index [i] with [fuel = 3 - i] rounds to go; [mail i] is the error
    of the call of [smtp.SendMail] of round [i]. *)
Fixpoint sendLoop (mail : nat -> option string) (i fuel : nat) (last : option string) : Sent :=
  match fuel with
  | O => {| calls := 0; slept := 0; err := last |}
  | S fuel' =>
    match mail i with
    | None => {| calls := 1; slept := 0; err := None |}
    | Some e =>
      let r := sendLoop mail (S i) fuel' (Some e) in
      {| calls := S (calls r);
         slept := (if (i <? 2)%nat then Z.of_nat i + 1 else 0) + slept r;
         err := err r |}
    end
  end.

(** [func sendEmailAlert(ctx, alert) error]. *)
Definition sendEmailAlert (mail : nat -> option string) : Sent :=
  sendLoop mail 0 3 None.

(** A CloudEvent as [AlertSubscriber] reads it: what [e.DataAs] gives
    ([None] for an error, else the bytes of the message) and what
    [json.Unmarshal] makes of those bytes ([None] for an error). *)
Record Event : Type := mkEvent {
  dataAs : option string;
  unmarshal : option TrendFlag
}.

(** The errors that [AlertSubscriber] returns. *)
Inductive SubscriberError : Type :=
  | ParseError
  | EmptyData
  | DecodeAlertError
  | ValidationFailed (e : string)
  | SendFailed (e : string).

(** [func AlertSubscriber(ctx, e) error]: the error returned ([None]
    is [nil]) and what [sendEmailAlert] did, if it was called. *)
Definition AlertSubscriber (e : Event) (mail : nat -> option string)
  : option SubscriberError * option Sent :=
  match dataAs e with
  | None => (Some ParseError, None)
  | Some data =>
    if (String.length data =? 0)%nat then (Some EmptyData, None)
    else
      match unmarshal e with
      | None => (Some DecodeAlertError, None)
      | Some alert =>
        match validateAlert alert with
        | Some v => (Some (ValidationFailed v), None)
        | None =>
          let r := sendEmailAlert mail in
          match err r with
          | Some x => (Some (SendFailed x), Some r)
          | None => (None, Some r)
          end
        end
      end
  end.

End Email.

(** ** The alert function ([package alert]) *)

Module Alert.

(** [type TrendFlag struct], the same declaration as in [package
    email]. *)
Abbreviation TrendFlag := Email.TrendFlag (only parsing).

(** What [it.Next(&row)] returns before [iterator.Done]: a row or an
    error. *)
Inductive RowResult : Type :=
  | Row (row : TrendFlag)
  | RowError.

(** What happens to one alert in the publishing loop: [json.Marshal]
    fails, [result.Get] fails, or the message is published. *)
Inductive PublishOutcome : Type :=
  | MarshalFailed
  | PublishFailed
  | Published.

(** What one call of [AlertHandler] meets: whether the BigQuery client
    could be made, the result of the query ([None] for an error of
    [Read], else the results of [it.Next] up to [iterator.Done]),
    whether the Pub/Sub client could be made, and the outcome for the
    alert of each index. *)
Record World : Type := mkWorld {
  bigquery_ok : bool;
  query : option (list RowResult);
  pubsub_ok : bool;
  outcome : nat -> PublishOutcome
}.

(** The body written to the response. *)
Inductive ResponseBody : Type :=
  | ErrorText (msg : string)
  | NoAnomalies
  | PublishedOutOf (successCount total : nat).

Record Response : Type := mkResponse {
  status : Z;
  body : ResponseBody;
  published : list TrendFlag
}.

Definition StatusOK : Z := 200.
Definition StatusInternalServerError : Z := 500.

(** The loop that reads the query results: the rows read, or [None]
    at the first error. *)
Fixpoint readRows (results : list RowResult) : option (list TrendFlag) :=
  match results with
  | [] => Some []
  | RowError :: _ => None
  | Row row :: rest =>
    match readRows rest with
    | None => None
    | Some alerts => Some (row :: alerts)
    end
  end.

(** The publishing loop from the alert of index [i]: the messages
    published and [successCount]. *)
Fixpoint publishAll (outcome : nat -> PublishOutcome) (i : nat) (alerts : list TrendFlag)
  : list TrendFlag * nat :=
  match alerts with
  | [] => ([], 0%nat)
  | alert :: rest =>
    let '(sent, n) := publishAll outcome (S i) rest in
    match outcome i with
    | Published => (alert :: sent, S n)
    | _ => (sent, n)
    end
  end.

(** [func AlertHandler(w http.ResponseWriter, r *http.Request)]. *)
Definition AlertHandler (w : World) : Response :=
  if negb (bigquery_ok w) then
    mkResponse StatusInternalServerError (ErrorText "BigQuery client error") []
  else
    match query w with
    | None => mkResponse StatusInternalServerError (ErrorText "Query execution error") []
    | Some results =>
      match readRows results with
      | None => mkResponse StatusInternalServerError (ErrorText "Error reading results") []
      | Some alerts =>
        match alerts with
        | [] => mkResponse StatusOK NoAnomalies []
        | _ =>
          if negb (pubsub_ok w) then
            mkResponse StatusInternalServerError (ErrorText "Pub/Sub client error") []
          else
            let '(sent, successCount) := publishAll (outcome w) 0 alerts in
            mkResponse StatusOK (PublishedOutOf successCount (length alerts)) sent
        end
      end
    end.

End Alert.

(** * Properties *)

(** ** The bounded log buffer *)

Section LogBufferProperties.
Import LogSender.

Lemma last_n_length {A : Type} (n : nat) (l : list A) :
  length (last_n n l) = Nat.min n (length l).
Proof. unfold last_n. rewrite length_drop. lia. Qed.

Lemma last_n_absorb {A : Type} (n : nat) (l r : list A) :
  last_n n (last_n n l ++ r) = last_n n (l ++ r).
Proof.
  unfold last_n.
  destruct (Nat.le_gt_cases (length l) n) as [Hle | Hgt].
  - replace (length l - n)%nat with 0%nat by lia. reflexivity.
  - rewrite !length_app, length_drop.
    replace (length l - (length l - n) + length r - n)%nat with (length r) by lia.
    replace (length l + length r - n)%nat with ((length l - n) + length r)%nat by lia.
    rewrite <- drop_drop. f_equal.
    rewrite drop_app_le by lia. reflexivity.
Qed.

Lemma AddLog_last_n (s : LogSender) (e : LogEntryCompact) :
  logCache (AddLog s e) = last_n capacity (logCache s ++ [e]).
Proof.
  unfold AddLog, last_n. simpl.
  destruct (Nat.ltb_spec capacity (length (logCache s ++ [e]))) as [H | H].
  - reflexivity.
  - replace (length (logCache s ++ [e]) - capacity)%nat with 0%nat by lia.
    reflexivity.
Qed.

Lemma AddLogs_last_n (es : list LogEntryCompact) :
  forall s : LogSender,
    (length (logCache s) <= capacity)%nat ->
    logCache (AddLogs s es) = last_n capacity (logCache s ++ es).
Proof.
  induction es as [| e es IH]; intros s Hs.
  - simpl. rewrite app_nil_r. unfold last_n.
    replace (length (logCache s) - capacity)%nat with 0%nat by lia. reflexivity.
  - change (AddLogs s (e :: es)) with (AddLogs (AddLog s e) es).
    rewrite IH.
    + rewrite AddLog_last_n, last_n_absorb, <- app_assoc. reflexivity.
    + rewrite AddLog_last_n, last_n_length. lia.
Qed.

(** C1. Starting from a buffer within its capacity (the empty buffer
    of a new sender in particular), after any run of appends the buffer
    holds at most 200 entries and is the run of the last 200 entries of
    what it held followed by what was appended, in that order; once
    more than 200 entries were appended it is exactly the last 200 of
    them. *)
Theorem AddLog_keeps_most_recent_200 (s : LogSender) (es : list LogEntryCompact) :
  (length (logCache s) <= 200)%nat ->
  (length (logCache (AddLogs s es)) <= 200)%nat /\
  logCache (AddLogs s es) = last_n 200 (logCache s ++ es) /\
  ((200 < length es)%nat ->
     logCache (AddLogs s es) = drop (length es - 200) es /\
     length (logCache (AddLogs s es)) = 200%nat).
Proof.
  intros Hs.
  pose proof (AddLogs_last_n es s Hs) as Heq. change capacity with 200%nat in Heq.
  split; [| split].
  - rewrite Heq, last_n_length. lia.
  - exact Heq.
  - intros Hes.
    assert (logCache (AddLogs s es) = drop (length es - 200) es) as Hd.
    { rewrite Heq. unfold last_n. rewrite length_app.
      replace (length (logCache s) + length es - 200)%nat
        with (length (logCache s) + (length es - 200))%nat by lia.
      rewrite drop_app_add. reflexivity. }
    split; [exact Hd |].
    rewrite Hd, length_drop. lia.
Qed.

Lemma AddLog_keeps_most_recent_200_witness :
  logCache (AddLogs (NewLogSender "dev-1") (numbered 203)) = drop 3 (numbered 203) /\
  length (logCache (AddLogs (NewLogSender "dev-1") (numbered 203))) = 200%nat.
Proof.
  apply (AddLog_keeps_most_recent_200 (NewLogSender "dev-1") (numbered 203)).
  - simpl. lia.
  - vm_compute. lia.
Defined.

Lemma SendBatch_eq (s : LogSender) (batchSize : Z) :
  0 <= batchSize ->
  SendBatch s batchSize =
    let k := Nat.min (Z.to_nat batchSize) (length (logCache s)) in
    Some {| sender := {| deviceID := deviceID s; logCache := drop k (logCache s) |};
            entries := take k (logCache s);
            posts := Send s (take k (logCache s)) |}.
Proof.
  intros Hn. destruct s as [id c]. unfold SendBatch. cbn [logCache deviceID].
  destruct c as [| e c].
  { cbv zeta. cbn [length]. rewrite Nat.min_0_r. reflexivity. }
  set (l := e :: c).
  destruct (Z.gtb_spec (Z.of_nat (length l)) batchSize) as [Hgt | Hle].
  - destruct (Z.ltb_spec batchSize 0) as [Hneg | _]; [lia |].
    cbv zeta. replace (Nat.min (Z.to_nat batchSize) (length l)) with (Z.to_nat batchSize) by lia.
    reflexivity.
  - cbv zeta. replace (Nat.min (Z.to_nat batchSize) (length l)) with (length l) by lia.
    rewrite drop_all, firstn_all. reflexivity.
Qed.

(** C3. With a bound [batchSize >= 0], [SendBatch] takes the oldest
    [min batchSize length] entries out of the buffer, in the order of
    their appending, and posts them as one batch; on an empty buffer it
    takes nothing and posts nothing.  A second drain takes the next
    entries: the two batches and the rest make up the buffer as it was,
    position by position, so no entry is in both (and no value either
    when the buffer held no value twice). *)
Theorem SendBatch_drains_fifo_prefix (s : LogSender) (batchSize batchSize' : Z) :
  0 <= batchSize -> 0 <= batchSize' ->
  exists d1 d2 : Drained,
    SendBatch s batchSize = Some d1 /\
    SendBatch (sender d1) batchSize' = Some d2 /\
    entries d1 = take (Nat.min (Z.to_nat batchSize) (length (logCache s))) (logCache s) /\
    logCache (sender d1) =
      drop (Nat.min (Z.to_nat batchSize) (length (logCache s))) (logCache s) /\
    entries d2 =
      take (Nat.min (Z.to_nat batchSize') (length (logCache (sender d1))))
           (logCache (sender d1)) /\
    posts d1 = Send s (entries d1) /\
    (logCache s = [] -> entries d1 = [] /\ posts d1 = []) /\
    entries d1 ++ entries d2 ++ logCache (sender d2) = logCache s /\
    (NoDup (logCache s) -> forall e, e ∈ entries d1 -> e ∉ entries d2).
Proof.
  intros Hn Hm.
  pose proof (SendBatch_eq s batchSize Hn) as H1. cbv zeta in H1.
  set (k := Nat.min (Z.to_nat batchSize) (length (logCache s))) in *.
  eexists. eexists.
  split; [exact H1 |]. cbn [sender entries posts].
  split; [apply (SendBatch_eq _ batchSize' Hm) |].
  cbv zeta. cbn [sender entries posts logCache deviceID].
  set (k' := Nat.min (Z.to_nat batchSize') (length (drop k (logCache s)))).
  assert (take k (logCache s) ++ take k' (drop k (logCache s))
            ++ drop k' (drop k (logCache s)) = logCache s) as Hsplit.
  { rewrite (take_drop k' (drop k (logCache s))). apply take_drop. }
  split; [reflexivity |]. split; [reflexivity |]. split; [reflexivity |].
  split; [reflexivity |].
  split; [| split].
  - intros Hnil. rewrite Hnil, take_nil. split; reflexivity.
  - exact Hsplit.
  - intros Hnd e He1 He2. rewrite <- Hsplit in Hnd.
    apply NoDup_app in Hnd as (_ & Hdis & _).
    apply (Hdis e He1). apply elem_of_app. left. exact He2.
Qed.

Lemma SendBatch_drains_fifo_prefix_witness :
  exists d1 d2 : Drained,
    SendBatch (AddLogs (NewLogSender "dev-1") (numbered 5)) 2 = Some d1 /\
    SendBatch (sender d1) 2 = Some d2 /\
    entries d1 = [(1, 1001); (2, 1002)] /\
    entries d2 = [(3, 1003); (4, 1004)] /\
    logCache (sender d2) = [(5, 1005)].
Proof.
  destruct (SendBatch_drains_fifo_prefix
              (AddLogs (NewLogSender "dev-1") (numbered 5)) 2 2)
    as (d1 & d2 & H1 & H2 & _); [lia | lia |].
  exists d1, d2.
  vm_compute in H1. injection H1 as <-.
  vm_compute in H2. injection H2 as <-.
  repeat split; reflexivity.
Defined.

End LogBufferProperties.

(** ** Comparisons, [clamp] and the temperature buckets *)

Section FloatComparisons.
Local Open Scope Q_scope.

Lemma flt_true (x y : float64) : flt x y = true <-> x < y.
Proof.
  unfold flt. rewrite negb_true_iff. split.
  - intros H. apply Qnot_le_lt. intros Hle.
    apply Qle_bool_iff in Hle. congruence.
  - intros H. destruct (Qle_bool y x) eqn:E; [| reflexivity].
    apply Qle_bool_iff in E. lra.
Qed.

Lemma flt_false (x y : float64) : flt x y = false <-> y <= x.
Proof.
  unfold flt. rewrite negb_false_iff. apply Qle_bool_iff.
Qed.

Lemma fle_true (x y : float64) : fle x y = true <-> x <= y.
Proof. apply Qle_bool_iff. Qed.

Lemma fle_false (x y : float64) : fle x y = false <-> y < x.
Proof.
  unfold fle. split.
  - intros H. apply Qnot_le_lt. intros Hle.
    apply Qle_bool_iff in Hle. congruence.
  - intros H. destruct (Qle_bool x y) eqn:E; [| reflexivity].
    apply Qle_bool_iff in E. lra.
Qed.

Lemma fgt_true (x y : float64) : fgt x y = true <-> y < x.
Proof. apply flt_true. Qed.

Lemma fgt_false (x y : float64) : fgt x y = false <-> x <= y.
Proof. apply flt_false. Qed.

Lemma clamp_cases (v lo hi : float64) :
  (v < lo /\ clamp v lo hi = lo) \/
  (lo <= v /\ hi < v /\ clamp v lo hi = hi) \/
  (lo <= v /\ v <= hi /\ clamp v lo hi = v).
Proof.
  unfold clamp.
  destruct (flt v lo) eqn:E1.
  - left. apply flt_true in E1. auto.
  - apply flt_false in E1. destruct (fgt v hi) eqn:E2.
    + right; left. apply fgt_true in E2. auto.
    + right; right. apply fgt_false in E2. auto.
Qed.

Lemma clamp_range (v lo hi : float64) :
  lo <= hi -> lo <= clamp v lo hi <= hi.
Proof.
  intros Hb.
  destruct (clamp_cases v lo hi) as [(H1 & ->) | [(H1 & H2 & ->) | (H1 & H2 & ->)]]; lra.
Qed.

Lemma clamp_id (v lo hi : float64) :
  lo <= v <= hi -> clamp v lo hi = v.
Proof.
  intros Hv.
  destruct (clamp_cases v lo hi) as [(H1 & E) | [(H1 & H2 & E) | (H1 & H2 & E)]];
    [lra | lra | exact E].
Qed.

End FloatComparisons.

Section ClampProperties.
Local Open Scope Q_scope.

(** C9. [clamp v lo hi] lies in [[lo, hi]] whenever [lo <= hi], and is
    [v] itself when [v] lies there; hence whatever the random source
    returns, every field that [GenerateMetrics] clamps is within the
    bounds it is clamped to, in the CoAP client and in the HTTP
    client. *)
Theorem clamp_saturates_within_bounds :
  (forall v lo hi : float64,
      lo <= hi ->
      lo <= clamp v lo hi <= hi /\ (lo <= v <= hi -> clamp v lo hi = v)) /\
  (forall (s : CoapClient.MetricSender) (now stamp : Z) (d : Draws),
      let m := snd (CoapClient.GenerateMetrics s now stamp d) in
      0 <= CoapServer.CPUPercent m <= 100 /\
      0 <= CoapServer.MemUsedMB m <= 4096 /\
      0 <= CoapServer.DiskUsagePercent m <= 100 /\
      0 <= CoapServer.DiskReadMBps m <= 10 /\
      0 <= CoapServer.DiskWriteMBps m <= 10) /\
  (forall (s : HttpClient.MetricSender) (now stamp : Z) (d : Draws),
      let m := snd (HttpClient.GenerateMetrics s now stamp d) in
      0 <= HttpServer.MCUUsagePercent m <= 100 /\
      -40 <= HttpServer.ThermometerC (HttpServer.ExternalSensors_ m) <= 60 /\
      950 <= HttpServer.BarometerHPa (HttpServer.ExternalSensors_ m) <= 1050 /\
      10 <= HttpServer.HygrometerRH (HttpServer.ExternalSensors_ m) <= 100 /\
      0 <= HttpServer.AnemometerMPS (HttpServer.ExternalSensors_ m) <= 25).
Proof.
  split; [| split].
  - intros v lo hi Hb. split; [apply clamp_range; exact Hb | apply clamp_id].
  - intros s now stamp d. unfold CoapClient.GenerateMetrics.
    destruct (CoapClient.generateTemp s now d) as [s' temp]. cbn.
    repeat split; apply clamp_range; lra.
  - intros s now stamp d. unfold HttpClient.GenerateMetrics.
    destruct (HttpClient.generateTemp s now d) as [s' temp]. cbn.
    repeat split; apply clamp_range; lra.
Qed.

(** C6. The severity derived from a temperature, bucket by bucket. *)
Theorem tempToSeverityString_buckets (t : float64) :
  (t < 75 -> tempToSeverityString t = "INFO") /\
  (75 <= t < 85 -> tempToSeverityString t = "WARNING") /\
  (85 <= t < 95 -> tempToSeverityString t = "CRITICAL") /\
  (95 <= t <= 100 -> tempToSeverityString t = "EMERGENCY") /\
  (100 < t -> tempToSeverityString t = "INFO").
Proof.
  unfold tempToSeverityString.
  destruct (flt t 75) eqn:E1;
    [apply flt_true in E1 | apply flt_false in E1];
  (destruct (flt t 85) eqn:E2;
    [apply flt_true in E2 | apply flt_false in E2]);
  (destruct (flt t 95) eqn:E3;
    [apply flt_true in E3 | apply flt_false in E3]);
  (destruct (fle t 100) eqn:E4;
    [apply fle_true in E4 | apply fle_false in E4]);
  repeat split; intros; try reflexivity; lra.
Qed.

End ClampProperties.

(** ** Severity levels *)

Section SeverityLevels.





(** The level of a severity is printed back as that severity. *)
Lemma replacer_severity_mapSeverityToLevel (name : string) :
  In name severities -> replacer_severity (mapSeverityToLevel name) = name.
Proof.
  unfold severities. simpl. intros H.
  repeat (destruct H as [<- | H]; [reflexivity |]). destruct H.
Qed.

(** Every record that a log handler emits is printed with the severity
    of its catalog entry. *)
Lemma catalog_severity_printed (id : Z) (def : EventDefinition) :
  eventDefinitions !! id = Some def ->
  In (Severity def) severities /\
  replacer_severity (mapSeverityToLevel (Severity def)) = Severity def.
Proof.
  intros Hdef.
  assert (In (Severity def) severities) as Hin.
  { unfold eventDefinitions in Hdef. apply elem_of_list_to_map_2 in Hdef.
    repeat (apply elem_of_cons in Hdef as [Hdef | Hdef];
            [injection Hdef as _ ->; cbn; tauto |]).
    apply elem_of_nil in Hdef. destruct Hdef. }
  split; [exact Hin | apply replacer_severity_mapSeverityToLevel, Hin].
Qed.

End SeverityLevels.

(** ** The ingestion handlers *)

Section IngestionProperties.
Context {M : Type}.



Lemma logEntry_spec (deviceID : string) (s : Server M) (entry : list Z) :
  logEntry deviceID s entry =
  {| cache := cache s;
     records := records s ++ option_list (emitted deviceID entry);
     diag := diag s ++ option_list (warned entry) |}.
Proof.
  destruct s as [c r g].
  destruct entry as [| id [| ts [| x rest]]];
    try (cbn; rewrite ?app_nil_r; reflexivity).
  unfold logEntry, emitted, warned, uint8.
  destruct (eventDefinitions !! (id mod 256)) as [def |];
    cbn; rewrite ?app_nil_r; reflexivity.
Qed.

Lemma omap_option_list {A B : Type} (f : A -> option B) (l : list A) :
  omap f l = flat_map (fun x => option_list (f x)) l.
Proof.
  induction l as [| x l IH]; [reflexivity |].
  cbn. destruct (f x); cbn; rewrite IH; reflexivity.
Qed.

Lemma logEntries_spec (batch : IncomingLogBatch) :
  forall s : Server M,
    logEntries batch s =
    {| cache := cache s;
       records := records s ++ omap (emitted (DeviceID batch)) (Logs batch);
       diag := diag s ++ omap warned (Logs batch) |}.
Proof.
  unfold logEntries. generalize (DeviceID batch) as dev.
  induction (Logs batch) as [| entry logs IH]; intros dev s.
  - cbn. rewrite !app_nil_r. destruct s; reflexivity.
  - cbn [foldl]. rewrite IH, logEntry_spec. cbn [cache records diag].
    rewrite !omap_option_list. cbn [flat_map].
    rewrite <- !app_assoc. reflexivity.
Qed.

End IngestionProperties.

Section HandlerProperties.




(** C7, with the status of each handler.  Each of the four handlers
    answers a body that
    decodes with its own success status: 200 OK and 202 Accepted for
    /batchLog and /batchMetric over HTTP, 2.01 Created and 2.04 Changed
    over CoAP.  Each answers a body that cannot be read or decoded with
    a bad request and leaves the metric cache and the emitted records
    as they were. *)
Theorem handlers_status_and_untouched_state :
  (forall (s : Server HttpServer.Metrics) (batch : IncomingLogBatch),
      snd (HttpServer.handleBatchLog s (Decoded batch)) = 200) /\
  (forall (s : Server HttpServer.Metrics) (m : HttpServer.Metrics),
      snd (HttpServer.handleMetrics s (Decoded m)) = 202) /\
  (forall (s : Server CoapServer.Metrics) (batch : IncomingLogBatch),
      snd (CoapServer.handleCoapBatchLog s (Decoded batch)) = CoapServer.Created) /\
  (forall (s : Server CoapServer.Metrics) (m : CoapServer.Metrics),
      snd (CoapServer.handleCoapMetrics s (Decoded m)) = CoapServer.Changed) /\
  (forall (s : Server HttpServer.Metrics) (body : Body IncomingLogBatch),
      (forall batch, body <> Decoded batch) ->
      snd (HttpServer.handleBatchLog s body) = 400 /\
      cache (fst (HttpServer.handleBatchLog s body)) = cache s /\
      records (fst (HttpServer.handleBatchLog s body)) = records s) /\
  (forall (s : Server HttpServer.Metrics) (body : Body HttpServer.Metrics),
      (forall m, body <> Decoded m) ->
      snd (HttpServer.handleMetrics s body) = 400 /\
      cache (fst (HttpServer.handleMetrics s body)) = cache s /\
      records (fst (HttpServer.handleMetrics s body)) = records s) /\
  (forall (s : Server CoapServer.Metrics) (body : Body IncomingLogBatch),
      (forall batch, body <> Decoded batch) ->
      snd (CoapServer.handleCoapBatchLog s body) = CoapServer.BadRequest /\
      cache (fst (CoapServer.handleCoapBatchLog s body)) = cache s /\
      records (fst (CoapServer.handleCoapBatchLog s body)) = records s) /\
  (forall (s : Server CoapServer.Metrics) (body : Body CoapServer.Metrics),
      (forall m, body <> Decoded m) ->
      snd (CoapServer.handleCoapMetrics s body) = CoapServer.BadRequest /\
      cache (fst (CoapServer.handleCoapMetrics s body)) = cache s /\
      records (fst (CoapServer.handleCoapMetrics s body)) = records s).
Proof.
  repeat apply conj; try reflexivity;
    intros s [| | v] Hbad; try (repeat split; reflexivity);
    exfalso; apply (Hbad v); reflexivity.
Qed.

(** Over HTTP a body that decodes is answered with 200 OK on /batchLog
    and with 202 Accepted on /batchMetric, neither of which is 201
    Created. *)
Lemma http_success_is_not_created :
  snd (HttpServer.handleBatchLog emptyServer (Decoded batch261)) = 200 /\
  snd (HttpServer.handleMetrics emptyServer (Decoded (httpSample "d1" 50))) = 202 /\
  200 <> HttpServer.StatusCreated /\
  202 <> HttpServer.StatusCreated.
Proof. repeat split; (reflexivity || (vm_compute; discriminate)). Qed.

End HandlerProperties.

(** ** From the client's buffer to the server's records *)

Section ClientToServer.
Import LogSender.

Lemma omap_cons_eq {A B : Type} (f : A -> option B) (x : A) (l : list A) :
  omap f (x :: l) = match f x with Some y => y :: omap f l | None => omap f l end.
Proof. reflexivity. Qed.

Lemma catalog_ids_are_uint8 (id : Z) :
  is_Some (eventDefinitions !! id) -> 1 <= id <= 27 /\ id mod 256 = id.
Proof.
  intros [def Hdef]. unfold eventDefinitions in Hdef.
  apply elem_of_list_to_map_2 in Hdef.
  assert (1 <= id <= 27) as Hr.
  { repeat (apply elem_of_cons in Hdef as [Hdef | Hdef];
            [injection Hdef as -> _; lia |]).
    apply elem_of_nil in Hdef. destruct Hdef. }
  split; [exact Hr | apply Z.mod_small; lia].
Qed.

Lemma addEvent_catalogued (s : LogSender) (id ts : Z) :
  catalogued (logCache s) -> catalogued (logCache (addEvent s id ts)).
Proof.
  intros Hs. unfold addEvent.
  destruct (eventDefinitions !! id) as [def |] eqn:Hid; [| exact Hs].
  rewrite AddLog_last_n. unfold last_n, catalogued.
  apply Forall_drop, Forall_app. split; [exact Hs |].
  apply Forall_singleton. cbn [fst]. rewrite Hid. eexists. reflexivity.
Qed.

Lemma SendBatch_catalogued (s : LogSender) (batchSize : Z) (d : Drained) :
  catalogued (logCache s) -> SendBatch s batchSize = Some d ->
  catalogued (entries d) /\ catalogued (logCache (sender d)).
Proof.
  intros Hs. unfold SendBatch.
  destruct (logCache s) as [| e c] eqn:Hc.
  - intros [= <-]. cbn. rewrite Hc. split; [constructor | exact Hs].
  - destruct (_ >? _).
    + destruct (_ <? _); [discriminate |]. intros [= <-]. cbn.
      split; [apply Forall_take, Hs | apply Forall_drop, Hs].
    + intros [= <-]. cbn. split; [exact Hs | constructor].
Qed.

(** What the client drains from a buffer filled by [addEvent], the
    server logs entry for entry: no warning, one record each. *)
Lemma client_batch_logged_entry_for_entry (dev : string) (es : list LogEntryCompact) :
  catalogued es ->
  omap warned (Logs (wire (mkPayload dev es))) = [] /\
  length (omap (emitted dev) (Logs (wire (mkPayload dev es)))) = length es.
Proof.
  unfold wire. cbn [Logs DeviceID device_id logs].
  induction 1 as [| [id ts] es Hid Hes [IHw IHe]]; [split; reflexivity |].
  cbn [fst] in Hid.
  destruct (catalog_ids_are_uint8 id Hid) as [_ Hmod].
  destruct Hid as [def Hdef].
  assert (warned [id; ts] = None) as Hw.
  { unfold warned. rewrite Hmod, Hdef. reflexivity. }
  assert (emitted dev [id; ts] = Some (deviceLog dev def ts)) as He.
  { unfold emitted. rewrite Hmod, Hdef. reflexivity. }
  cbn [map fst snd]. rewrite !omap_cons_eq, Hw, He. cbn [length].
  split; [exact IHw | f_equal; exact IHe].
Qed.

End ClientToServer.

(** ** The metric cache and the export callback *)

Section KeyedCache.
Context {M O : Type}.
Variable key : M -> string.
Variable obs : M -> list O.
Variable dev : string -> O -> bool.
Hypothesis obs_dev : forall (m : M) (o : O) (d : string),
    In o (obs m) -> dev d o = String.eqb d (key m).








Variable put : M -> Server M -> Server M.
Hypothesis put_cache : forall (m : M) (s : Server M),
    cache (put m s) = <[key m := m]> (cache s).




End KeyedCache.

Section MetricCacheProperties.





End MetricCacheProperties.

(** ** The anomaly generator *)

Section AnomalyProperties.

Lemma add64_exact (a b : Z) :
  minInt64 <= a + b <= maxInt64 -> add64 a b = a + b.
Proof.
  unfold add64, minInt64, maxInt64. intros H.
  rewrite Z.mod_small; lia.
Qed.

Lemma progress_mono (e1 e2 dur : Z) :
  0 < dur -> e1 <= e2 ->
  (inject_Z e1 / inject_Z dur <= inject_Z e2 / inject_Z dur)%Q.
Proof.
  intros Hd He. unfold Qdiv.
  apply Qmult_le_compat_r.
  - rewrite <- Zle_Qle. exact He.
  - apply Qlt_le_weak, Qinv_lt_0_compat.
    change 0%Q with (inject_Z 0). rewrite <- Zlt_Qlt. exact Hd.
Qed.


Lemma ramp_mono (base : float64) (e1 e2 dur : Z) :
  0 < dur -> (base <= 100)%Q -> e1 <= e2 ->
  (ramp base e1 dur <= ramp base e2 dur)%Q.
Proof.
  intros Hd Hb He. unfold ramp.
  pose proof (progress_mono e1 e2 dur Hd He) as Hp.
  set (p1 := (inject_Z e1 / inject_Z dur)%Q) in *.
  set (p2 := (inject_Z e2 / inject_Z dur)%Q) in *.
  assert (p1 * (100 - base) <= p2 * (100 - base))%Q as Hm.
  { apply Qmult_le_compat_r; [exact Hp | lra]. }
  lra.
Qed.


Lemma ramp_ends (base : float64) (dur : Z) :
  0 < dur -> (ramp base 0 dur == base)%Q /\ (ramp base dur dur == 100)%Q.
Proof.
  intros Hd. unfold ramp. split.
  - unfold Qdiv. change (inject_Z 0) with 0%Q. lra.
  - assert (inject_Z dur / inject_Z dur == 1)%Q as ->.
    { apply Qmult_inv_r. change 0%Q with (inject_Z 0).
      rewrite inject_Z_injective. lia. }
    lra.
Qed.

Lemma coap_GenerateMetrics_temp (s : CoapClient.MetricSender) (now stamp : Z) (d : Draws) :
  fst (CoapClient.GenerateMetrics s now stamp d) = fst (CoapClient.generateTemp s now d) /\
  CoapServer.TempC (snd (CoapClient.GenerateMetrics s now stamp d))
  = snd (CoapClient.generateTemp s now d).
Proof.
  unfold CoapClient.GenerateMetrics.
  destruct (CoapClient.generateTemp s now d). split; reflexivity.
Qed.

Lemma http_GenerateMetrics_temp (s : HttpClient.MetricSender) (now stamp : Z) (d : Draws) :
  fst (HttpClient.GenerateMetrics s now stamp d) = fst (HttpClient.generateTemp s now d) /\
  HttpServer.MCUTempC (snd (HttpClient.GenerateMetrics s now stamp d))
  = snd (HttpClient.generateTemp s now d).
Proof.
  unfold HttpClient.GenerateMetrics.
  destruct (HttpClient.generateTemp s now d). split; reflexivity.
Qed.

Lemma coap_phases (s : CoapClient.MetricSender) (now : Z) (d : Draws) :
  CoapClient.anomalyActive s = true ->
  0 <= CoapClient.anomalyDuration s ->
  0 <= CoapClient.anomalyHoldDuration s ->
  CoapClient.anomalyDuration s + CoapClient.anomalyHoldDuration s <= maxInt64 ->
  (Since now (CoapClient.anomalyStartTime s) <= CoapClient.anomalyDuration s ->
     CoapClient.generateTemp s now d
     = (s, ramp (CoapClient.baseTemp s) (Since now (CoapClient.anomalyStartTime s))
             (CoapClient.anomalyDuration s))) /\
  (CoapClient.anomalyDuration s < Since now (CoapClient.anomalyStartTime s)
     <= CoapClient.anomalyDuration s + CoapClient.anomalyHoldDuration s ->
     CoapClient.generateTemp s now d = (s, 100%Q)) /\
  (CoapClient.anomalyDuration s + CoapClient.anomalyHoldDuration s
     < Since now (CoapClient.anomalyStartTime s) ->
     CoapClient.generateTemp s now d
     = (CoapClient.endAnomaly s, clamp (Normal_Rand 45 (5 # 2) (rnd_temp d)) 30 65)).
Proof.
  intros Hact Hdur Hhold Hsum.
  unfold CoapClient.generateTemp. rewrite Hact. cbv zeta.
  rewrite add64_exact by (unfold minInt64; lia).
  set (elapsed := Since now (CoapClient.anomalyStartTime s)).
  repeat split; intros H.
  - destruct (Z.gtb_spec elapsed
                (CoapClient.anomalyDuration s + CoapClient.anomalyHoldDuration s)); [lia |].
    destruct (Z.leb_spec elapsed (CoapClient.anomalyDuration s)); [reflexivity | lia].
  - destruct (Z.gtb_spec elapsed
                (CoapClient.anomalyDuration s + CoapClient.anomalyHoldDuration s)); [lia |].
    destruct (Z.leb_spec elapsed (CoapClient.anomalyDuration s)); [lia | reflexivity].
  - destruct (Z.gtb_spec elapsed
                (CoapClient.anomalyDuration s + CoapClient.anomalyHoldDuration s));
      [reflexivity | lia].
Qed.


Lemma coap_generateTemp_inv (s : CoapClient.MetricSender) (now : Z) (d : Draws) :
  coap_inv s -> coap_inv (fst (CoapClient.generateTemp s now d)).
Proof.
  intros Hs. unfold CoapClient.generateTemp.
  destruct (CoapClient.anomalyActive s) eqn:Hact; [| exact Hs]. cbv zeta.
  destruct (_ >? _).
  - destruct Hs as [Hb _]. split; [exact Hb | cbn; discriminate].
  - destruct (_ <=? _); exact Hs.
Qed.

Lemma coap_SendMetric_inv (s : CoapClient.MetricSender) (k : Tick) :
  (0 <= uniform k /\ uniform k < 1)%Q ->
  coap_inv s -> coap_inv (fst (CoapClient.SendMetric s k)).
Proof.
  intros Hu Hs. unfold CoapClient.SendMetric.
  rewrite (proj1 (coap_GenerateMetrics_temp _ _ _ _)).
  apply coap_generateTemp_inv.
  unfold CoapClient.maybeTriggerAnomaly.
  destruct (CoapClient.anomalyActive s); [exact Hs |].
  destruct (fgt (trigger k) 2); [| exact Hs].
  unfold coap_inv, CoapClient.StartAnomaly. cbn.
  split; [lra |]. intros _. repeat split. lra.
Qed.

Lemma coap_run_inv (ks : list Tick) :
  unit_interval ks ->
  forall s : CoapClient.MetricSender, coap_inv s -> coap_inv (CoapClient.run s ks).
Proof.
  unfold CoapClient.run.
  induction 1 as [| k ks Hk Hks IH]; intros s Hs; [exact Hs |].
  cbn [foldl]. apply IH, coap_SendMetric_inv; assumption.
Qed.






End AnomalyProperties.

(** ** The scenarios of the specification, run on the handlers *)

Section Scenarios.

(** [{device_id: "d1", logs: [[5, 1700000000]]}] on /batchLog: success
    and one record, INFO, "Avvio completato", for [d1], stamped with
    the instant in RFC 3339. *)
Example scenario_known_event :
  HttpServer.handleBatchLog emptyServer
    (Decoded {| DeviceID := "d1"; Logs := [[5; 1700000000]] |})
  = ({| cache := ∅;
        records := [ {| level := LevelInfo;
                        msg := "Avvio completato";
                        attrs := [("device_id", VString "d1");
                                  ("timestamp", VString "2023-11-14T22:13:20Z");
                                  ("type", VString "devicelog")] |} ];
        diag := [] |},
     HttpServer.StatusOK) /\
  snd (CoapServer.handleCoapBatchLog emptyServer
         (Decoded {| DeviceID := "d1"; Logs := [[5; 1700000000]] |}))
  = CoapServer.Created.
Proof. split; vm_compute; reflexivity. Qed.

(** [{device_id: "d1", logs: [[99, 1700000000]]}]: success, no record,
    one warning. *)
Example scenario_unknown_event :
  CoapServer.handleCoapBatchLog emptyServer
    (Decoded {| DeviceID := "d1"; Logs := [[99; 1700000000]] |})
  = ({| cache := ∅; records := []; diag := [UnknownEventID 99] |}, CoapServer.Created).
Proof. vm_compute. reflexivity. Qed.

(** A batch with a known event, an unknown one, a short entry, an
    identifier that wraps around to 5 and a long entry. *)
Example scenario_mixed_batch :
  HttpServer.handleBatchLog emptyServer (Decoded batchMixed)
  = ({| cache := ∅;
        records := [ deviceLog "d1" (mkEvent "INFO" "Avvio completato") 1700000000;
                     deviceLog "d1" (mkEvent "INFO" "Avvio completato") 0 ];
        diag := [ UnknownEventID 99; InvalidEntry [7];
                  InvalidEntry [21; 1700000001; 3] ] |},
     HttpServer.StatusOK).
Proof. vm_compute. reflexivity. Qed.

(** A metric with [temp_c = 90]: cached, one record at the level of
    CRITICAL, answered with 2.04 Changed; a second one with
    [temp_c = 50] replaces it in the cache. *)
Example scenario_metric_90_then_50 :
  let '(s1, c1) := CoapServer.handleCoapMetrics emptyServer (Decoded (coapSample "d1" 90)) in
  let '(s2, c2) := CoapServer.handleCoapMetrics s1 (Decoded (coapSample "d1" 50)) in
  c1 = CoapServer.Changed /\
  cache s1 !! "d1" = Some (coapSample "d1" 90) /\
  records s1 = [ {| level := LevelCritical;
                    msg := "Critical temperature – action needed";
                    attrs := [("device_id", VString "d1");
                              ("value", VFloat 90);
                              ("type", VString "devicemetric")] |} ] /\
  c2 = CoapServer.Changed /\
  cache s2 !! "d1" = Some (coapSample "d1" 50) /\
  CoapServer.TempC <$> cache s2 !! "d1" = Some 50%Q.
Proof. vm_compute. repeat split; reflexivity. Qed.

(** A body that does not decode: bad request, nothing cached, nothing
    emitted. *)
Example scenario_malformed_body :
  HttpServer.handleBatchLog emptyServer Malformed = (emptyServer, HttpServer.StatusBadRequest) /\
  HttpServer.handleMetrics emptyServer Malformed
  = ({| cache := ∅; records := []; diag := [DecodeError] |}, HttpServer.StatusBadRequest) /\
  CoapServer.handleCoapBatchLog emptyServer Malformed
  = ({| cache := ∅; records := []; diag := [DecodeError] |}, CoapServer.BadRequest) /\
  CoapServer.handleCoapMetrics emptyServer Malformed
  = ({| cache := ∅; records := []; diag := [DecodeError] |}, CoapServer.BadRequest).
Proof. repeat split; reflexivity. Qed.

End Scenarios.

(** ** Values at the boundaries *)

Section BoundaryValues.
Local Open Scope Q_scope.

Example tempToSeverityString_at_boundaries :
  map tempToSeverityString [0; 749 # 10; 75; 849 # 10; 85; 949 # 10; 95; 100; 1001 # 10; 200; -5]
  = ["INFO"; "INFO"; "WARNING"; "WARNING"; "CRITICAL"; "CRITICAL";
     "EMERGENCY"; "EMERGENCY"; "INFO"; "INFO"; "INFO"]%string.
Proof. reflexivity. Qed.

Example clamp_at_boundaries :
  map (fun v => clamp v 0 100) [-1; 0; 1 # 2; 100; 101; 1000000]
  = [0; 0; 1 # 2; 100; 100; 100].
Proof. reflexivity. Qed.

Example mapSeverityToLevel_on_strings :
  map mapSeverityToLevel
      ["DEBUG"; "info"; "Notice"; "wArNiNg"; "error"; "CRITICAL"; "alert"; "Emergency";
       "fatal"; ""; "WARN"; " INFO"]%string
  = [-4; 0; 1; 4; 8; 10; 12; 14; 0; 0; 0; 0]%Z.
Proof. reflexivity. Qed.

Example uint8_wraps :
  map uint8 [0; 5; 255; 256; 261; -1; -251; 9223372036854775807]%Z
  = [0; 5; 255; 0; 5; 255; 5; 255]%Z.
Proof. reflexivity. Qed.

End BoundaryValues.

(** * Further properties of the code *)

(** ** Runs of appends and drains on one buffer *)

Section BufferRuns.
Import LogSender.

Lemma AddLog_length (s : LogSender) (e : LogEntryCompact) :
  (length (logCache s) <= 200)%nat ->
  (length (logCache (AddLog s e)) <= 200)%nat /\
  (length (logCache (AddLog s e)) + evictedBy s e = length (logCache s) + 1)%nat.
Proof.
  intros Hs. unfold evictedBy. rewrite AddLog_last_n, last_n_length, length_app.
  cbn [length]. unfold capacity. lia.
Qed.

Lemma AddLog_sublist (s : LogSender) (e : LogEntryCompact) :
  logCache (AddLog s e) `sublist_of` logCache s ++ [e].
Proof. rewrite AddLog_last_n. unfold last_n. apply sublist_drop. Qed.

Lemma AddLog_no_eviction (s : LogSender) (e : LogEntryCompact) :
  (length (logCache s) <= 200)%nat -> evictedBy s e = 0%nat ->
  logCache (AddLog s e) = logCache s ++ [e].
Proof.
  intros Hs Hev. unfold evictedBy in Hev. rewrite AddLog_last_n in *.
  rewrite last_n_length, length_app in Hev. cbn [length] in Hev.
  unfold last_n. rewrite length_app. cbn [length]. unfold capacity in *.
  replace (length (logCache s) + 1 - 200)%nat with 0%nat by lia. reflexivity.
Qed.

Lemma runBuffer_accounts (ops : list BufferOp) :
  drains_nonneg ops ->
  forall s : LogSender,
    (length (logCache s) <= 200)%nat ->
    exists r : BufferRun,
      runBuffer s ops = Some r /\
      (length (logCache (final r)) <= 200)%nat /\
      concat (batches r) ++ logCache (final r) `sublist_of` logCache s ++ appended ops /\
      (length (concat (batches r)) + length (logCache (final r)) + evicted r
       = length (logCache s) + length (appended ops))%nat /\
      (evicted r = 0%nat ->
       concat (batches r) ++ logCache (final r) = logCache s ++ appended ops).
Proof.
  induction 1 as [| op ops Hop Hops IH]; intros s Hs.
  - eexists. split; [reflexivity |]. cbn [final batches evicted appended concat].
    rewrite !app_nil_r. cbn [app length].
    split; [exact Hs |]. split; [reflexivity |]. split; [lia | reflexivity].
  - destruct op as [e | n].
    + destruct (AddLog_length s e Hs) as [Hs' Hev].
      destruct (IH (AddLog s e) Hs') as (r & Hr & Hlen & Hsub & Hcount & Heq).
      eexists. cbn [runBuffer]. rewrite Hr. split; [reflexivity |].
      cbn [final batches evicted appended].
      split; [exact Hlen |]. split; [| split].
      * etransitivity; [exact Hsub |].
        change (logCache s ++ e :: appended ops)
          with (logCache s ++ [e] ++ appended ops).
        rewrite app_assoc. apply sublist_app; [apply AddLog_sublist | reflexivity].
      * cbn [length]. lia.
      * intros Hz.
        assert (evictedBy s e = 0%nat) as He by lia.
        assert (evicted r = 0%nat) as Hr0 by lia.
        rewrite (Heq Hr0), (AddLog_no_eviction s e Hs He), <- app_assoc.
        reflexivity.
    + pose proof (SendBatch_eq s n Hop) as Hd. cbv zeta in Hd.
      set (k := Nat.min (Z.to_nat n) (length (logCache s))) in *.
      assert (length (drop k (logCache s)) <= 200)%nat as Hs'.
      { rewrite length_drop. lia. }
      destruct (IH {| deviceID := deviceID s; logCache := drop k (logCache s) |} Hs')
        as (r & Hr & Hlen & Hsub & Hcount & Heq).
      cbn [logCache] in *.
      eexists. cbn [runBuffer]. rewrite Hd. cbn [sender entries posts]. rewrite Hr.
      split; [reflexivity |]. cbn [final batches evicted appended concat].
      split; [exact Hlen |]. split; [| split].
      * rewrite <- (take_drop k (logCache s)) at 2. rewrite <- !app_assoc.
        apply sublist_app; [reflexivity | exact Hsub].
      * rewrite length_app, length_take. rewrite length_drop in Hcount. lia.
      * intros Hz. rewrite <- app_assoc, (Heq Hz), app_assoc, take_drop.
        reflexivity.
Qed.

(** X1. Entries are conserved through any run of appends and drains
    with bounds that are not negative, from a buffer within capacity:
    the run does not panic, the buffer stays within 200 entries, the
    drained batches followed by what is left are a subsequence of what
    the buffer held followed by what was appended (nothing is
    duplicated, invented or reordered), every entry is drained, left or
    evicted, and a run that evicts nothing loses nothing. *)
Theorem buffer_run_conserves_entries (s : LogSender) (ops : list BufferOp) :
  drains_nonneg ops ->
  (length (logCache s) <= 200)%nat ->
  exists r : BufferRun,
    runBuffer s ops = Some r /\
    (length (logCache (final r)) <= 200)%nat /\
    concat (batches r) ++ logCache (final r) `sublist_of` logCache s ++ appended ops /\
    (length (concat (batches r)) + length (logCache (final r)) + evicted r
     = length (logCache s) + length (appended ops))%nat /\
    (evicted r = 0%nat ->
     concat (batches r) ++ logCache (final r) = logCache s ++ appended ops).
Proof. intros Hops Hs. apply runBuffer_accounts; assumption. Qed.

Lemma buffer_run_conserves_entries_witness :
  exists r : BufferRun,
    runBuffer (NewLogSender "dev-1") sampleOps = Some r /\
    batches r = [[(1, 1001); (2, 1002)];
                 [(3, 1003); (4, 1004); (5, 1005); (6, 1006)];
                 []] /\
    logCache (final r) = [] /\
    evicted r = 0%nat.
Proof.
  destruct (buffer_run_conserves_entries (NewLogSender "dev-1") sampleOps)
    as (r & Hr & _).
  - unfold sampleOps. apply Forall_app. split.
    + apply Forall_fmap, Forall_forall. intros e _. exact I.
    + repeat constructor; lia.
  - cbn. lia.
  - exists r. vm_compute in Hr. injection Hr as <-. repeat split; reflexivity.
Defined.

Lemma Send_cases (s : LogSender) (es : list LogEntryCompact) :
  (es = [] /\ Send s es = []) \/
  (es <> [] /\ Send s es = [ {| device_id := deviceID s; logs := es |} ]).
Proof. destruct es; [left | right]; split; (reflexivity || discriminate). Qed.

(** X2. Whenever [SendBatch] returns, at most one POST went out; it
    carries the sender's device identifier and exactly the entries
    taken out of the buffer, at least one and at most [batchSize] of
    them.  Nothing is posted exactly when nothing was taken; with a
    bound of 0 nothing is taken, so the buffer is never drained. *)
Theorem SendBatch_posts_one_sized_batch (s : LogSender) (batchSize : Z) (d : Drained) :
  SendBatch s batchSize = Some d ->
  (posts d = [] \/
   posts d = [ {| device_id := deviceID s; logs := entries d |} ]) /\
  (posts d = [] <-> entries d = []) /\
  (forall p, p ∈ posts d ->
     device_id p = deviceID s /\ logs p = entries d /\
     1 <= Z.of_nat (length (logs p)) <= batchSize) /\
  (batchSize = 0 -> posts d = [] /\ entries d = [] /\ sender d = s).
Proof.
  intros Hd.
  assert (0 <= batchSize \/ logCache s = []) as Hcase.
  { destruct (Z.le_gt_cases 0 batchSize) as [H | H]; [left; exact H | right].
    unfold SendBatch in Hd. destruct (logCache s) as [| e c]; [reflexivity |].
    destruct (Z.gtb_spec (Z.of_nat (length (e :: c))) batchSize) as [Hgt | Hle].
    - destruct (Z.ltb_spec batchSize 0); [discriminate | lia].
    - cbn [length] in Hle. lia. }
  assert (entries d
          = take (Nat.min (Z.to_nat batchSize) (length (logCache s))) (logCache s) /\
          sender d = {| deviceID := deviceID s;
                        logCache := drop (Nat.min (Z.to_nat batchSize)
                                                  (length (logCache s))) (logCache s) |} /\
          posts d = Send s (entries d)) as (He & Hs & Hp).
  { destruct Hcase as [Hn | Hnil].
    - rewrite (SendBatch_eq s batchSize Hn) in Hd. cbv zeta in Hd.
      injection Hd as <-. repeat split; reflexivity.
    - unfold SendBatch in Hd. rewrite Hnil in *. injection Hd as <-.
      cbn [entries sender posts length]. rewrite Nat.min_0_r.
      destruct s as [id c]. cbn in *. subst c. repeat split; reflexivity. }
  assert (Z.of_nat (length (entries d)) <= Z.max 0 batchSize) as Hlen.
  { rewrite He, length_take. lia. }
  split; [| split; [| split]].
  - rewrite Hp. destruct (Send_cases s (entries d)) as [[_ H] | [_ H]]; auto.
  - rewrite Hp. destruct (Send_cases s (entries d)) as [[H1 H2] | [H1 H2]];
      rewrite H2; split; intros H; (assumption || reflexivity || congruence).
  - intros p Hin. rewrite Hp in Hin.
    destruct (Send_cases s (entries d)) as [[H1 H2] | [H1 H2]]; rewrite H2 in Hin.
    + apply elem_of_nil in Hin. destruct Hin.
    + apply list_elem_of_singleton in Hin. subst p. cbn [device_id logs].
      split; [reflexivity |]. split; [reflexivity |].
      destruct (entries d) as [| e es]; [congruence |]. cbn [length] in *. lia.
  - intros ->. cbn [Z.to_nat Nat.min] in *.
    rewrite take_0 in He. rewrite drop_0 in Hs.
    rewrite Hp, He. split; [reflexivity |]. split; [reflexivity |].
    rewrite Hs. destruct s; reflexivity.
Qed.

Lemma SendBatch_posts_one_sized_batch_witness :
  exists d : Drained,
    SendBatch (AddLogs (NewLogSender "dev-1") (numbered 5)) 2 = Some d /\
    posts d = [ {| device_id := "dev-1"; logs := [(1, 1001); (2, 1002)] |} ].
Proof.
  eexists. split; [vm_compute; reflexivity |].
  destruct (proj1 (SendBatch_posts_one_sized_batch
                     (AddLogs (NewLogSender "dev-1") (numbered 5)) 2 _ eq_refl))
    as [H | H]; [discriminate H | exact H].
Defined.

End BufferRuns.

(** ** From [addEvent] on the device to the records of the server *)

Section EventsEndToEnd.
Import LogSender.

Lemma catalog_defines_1_to_27 (id : Z) :
  is_Some (eventDefinitions !! id) <-> 1 <= id <= 27.
Proof.
  split; [intros H; apply (catalog_ids_are_uint8 id H) |].
  intros Hr.
  assert (exists n : nat, id = Z.of_nat n /\ (1 <= n <= 27)%nat) as (n & -> & Hn).
  { exists (Z.to_nat id). lia. }
  clear Hr.
  do 28 (destruct n as [| n]; [first [lia | vm_compute; eexists; reflexivity] |]).
  lia.
Qed.

Lemma addEvent_deviceID (s : LogSender) (id ts : Z) :
  deviceID (addEvent s id ts) = deviceID s.
Proof. unfold addEvent. destruct (eventDefinitions !! id); reflexivity. Qed.

Lemma addEvents_invariant (events : list (Z * Z)) :
  forall s : LogSender,
    catalogued (logCache s) -> (length (logCache s) <= 200)%nat ->
    catalogued (logCache (addEvents s events)) /\
    (length (logCache (addEvents s events)) <= 200)%nat /\
    deviceID (addEvents s events) = deviceID s.
Proof.
  unfold addEvents.
  induction events as [| [id ts] events IH]; intros s Hc Hl; [auto |].
  cbn [foldl fst snd].
  destruct (IH (addEvent s id ts)) as (H1 & H2 & H3).
  - apply addEvent_catalogued, Hc.
  - unfold addEvent. destruct (eventDefinitions !! id); [| exact Hl].
    rewrite AddLog_last_n, last_n_length. unfold capacity. lia.
  - rewrite H3, addEvent_deviceID. auto.
Qed.

Lemma SendBatch_post_inv (s : LogSender) (batchSize : Z) (d : Drained) (p : Payload) :
  SendBatch s batchSize = Some d -> p ∈ posts d ->
  device_id p = deviceID s /\ logs p = entries d.
Proof.
  unfold SendBatch. destruct (logCache s) as [| e c].
  - intros [= <-] Hin. apply elem_of_nil in Hin. destruct Hin.
  - destruct (_ >? _).
    + destruct (_ <? _); [discriminate |]. intros [= <-]. cbn [posts entries].
      intros Hin. destruct (Send_cases
        {| deviceID := deviceID s; logCache := drop (Z.to_nat batchSize) (e :: c) |}
        (take (Z.to_nat batchSize) (e :: c))) as [[_ H] | [_ H]];
        rewrite H in Hin.
      * apply elem_of_nil in Hin. destruct Hin.
      * apply list_elem_of_singleton in Hin. subst p. split; reflexivity.
    + intros [= <-]. cbn [posts entries Send].
      intros Hin. apply list_elem_of_singleton in Hin. subst p. split; reflexivity.
Qed.

Lemma catalogued_logged (dev : string) (es : list LogEntryCompact) :
  catalogued es ->
  omap warned (map (fun e => [fst e; snd e]) es) = [] /\
  Forall2 (logged_as dev) es (omap (emitted dev) (map (fun e => [fst e; snd e]) es)).
Proof.
  induction 1 as [| [id ts] es Hid Hes [IHw IHe]]; [split; [reflexivity | constructor] |].
  cbn [fst] in Hid.
  destruct (catalog_ids_are_uint8 id Hid) as [_ Hmod].
  destruct Hid as [def Hdef].
  assert (warned [id; ts] = None) as Hw.
  { unfold warned. rewrite Hmod, Hdef. reflexivity. }
  assert (emitted dev [id; ts] = Some (deviceLog dev def ts)) as He.
  { unfold emitted. rewrite Hmod, Hdef. reflexivity. }
  cbn [map fst snd]. rewrite !omap_cons_eq, Hw, He.
  split; [exact IHw |]. constructor; [| exact IHe].
  exists def. split; [exact Hdef | reflexivity].
Qed.

Lemma addEvent_outside_catalog (s : LogSender) (id ts : Z) :
  ~ 1 <= id <= 27 -> addEvent s id ts = s.
Proof.
  intros Hr. unfold addEvent.
  destruct (eventDefinitions !! id) as [def |] eqn:Hdef; [| reflexivity].
  exfalso. apply Hr, catalog_defines_1_to_27. eexists. exact Hdef.
Qed.

Lemma addEvents_sublist (events : list (Z * Z)) :
  forall s : LogSender,
    logCache (addEvents s events)
      `sublist_of` logCache s ++ filter (fun ev => 1 <= fst ev <= 27) events.
Proof.
  unfold addEvents. induction events as [| [id ts] events IH]; intros s.
  - cbn. rewrite app_nil_r. reflexivity.
  - cbn [foldl fst snd]. etransitivity; [apply IH |].
    destruct (decide (1 <= id <= 27)) as [Hr | Hr].
    + rewrite filter_cons_True by exact Hr.
      apply catalog_defines_1_to_27 in Hr as [def Hdef].
      unfold addEvent. rewrite Hdef.
      change (logCache s ++ (id, ts) :: filter (fun ev => 1 <= fst ev <= 27) events)
        with (logCache s ++ [(id, ts)] ++ filter (fun ev => 1 <= fst ev <= 27) events).
      rewrite app_assoc. apply sublist_app; [apply AddLog_sublist | reflexivity].
    + rewrite filter_cons_False by exact Hr.
      rewrite (addEvent_outside_catalog s id ts Hr). reflexivity.
Qed.

(** X3. [addEvent] buffers an event exactly when its identifier is
    one of the 27 of the catalog, 1 to 27: then the entry is appended
    with its timestamp (the oldest entry giving way at 200), otherwise
    the sender is left as it was.  A buffer that only [addEvent] filled
    holds catalog identifiers only and never more than 200 entries. *)
Theorem addEvent_buffers_catalog_events_only :
  (forall (s : LogSender) (id ts : Z),
      (1 <= id <= 27 ->
       logCache (addEvent s id ts) = last_n 200 (logCache s ++ [(id, ts)]) /\
       deviceID (addEvent s id ts) = deviceID s) /\
      (~ 1 <= id <= 27 -> addEvent s id ts = s)) /\
  (forall (dev : string) (events : list (Z * Z)),
      Forall (fun e => 1 <= fst e <= 27) (logCache (addEvents (NewLogSender dev) events)) /\
      (length (logCache (addEvents (NewLogSender dev) events)) <= 200)%nat /\
      logCache (addEvents (NewLogSender dev) events)
        `sublist_of` filter (fun ev => 1 <= fst ev <= 27) events).
Proof.
  split.
  - intros s id ts. split.
    + intros Hr. apply catalog_defines_1_to_27 in Hr as [def Hdef].
      unfold addEvent. rewrite Hdef. split; [apply AddLog_last_n | reflexivity].
    + apply addEvent_outside_catalog.
  - intros dev events.
    destruct (addEvents_invariant events (NewLogSender dev)) as (Hc & Hl & _);
      [constructor | cbn; lia |].
    split; [| split; [exact Hl |]].
    + eapply Forall_impl; [exact Hc |]. intros e He.
      apply catalog_defines_1_to_27, He.
    + apply (addEvents_sublist events (NewLogSender dev)).
Qed.

(** X4. What the device buffers through [addEvent] and posts through
    [SendBatch], the CoAP server logs entry for entry when the body
    reaches it as sent: it answers 2.01 Created, writes no warning,
    leaves the cache alone and emits, in the order of the batch, one
    record per entry with the device identifier of the sender, the
    level and message of the entry's catalog event and the entry's
    timestamp. *)
Theorem client_batch_logged_by_server
    (dev : string) (events : list (Z * Z)) (batchSize : Z)
    (d : Drained) (p : Payload) (srv : Server CoapServer.Metrics) :
  SendBatch (addEvents (NewLogSender dev) events) batchSize = Some d ->
  p ∈ posts d ->
  exists rs : list LogRecord,
    CoapServer.handleCoapBatchLog srv (Decoded (wire p))
    = ({| cache := cache srv; records := records srv ++ rs; diag := diag srv |},
       CoapServer.Created) /\
    device_id p = dev /\
    Forall2 (logged_as dev) (logs p) rs.
Proof.
  intros Hd Hin.
  destruct (addEvents_invariant events (NewLogSender dev)) as (Hc & _ & Hid);
    [constructor | cbn; lia |].
  destruct (SendBatch_catalogued _ _ _ Hc Hd) as [Hes _].
  destruct (SendBatch_post_inv _ _ _ _ Hd Hin) as [Hp1 Hp2].
  rewrite Hid in Hp1. cbn [NewLogSender deviceID] in Hp1.
  rewrite <- Hp2 in Hes.
  destruct (catalogued_logged dev (logs p) Hes) as [Hw He].
  eexists. split; [| split; [exact Hp1 | exact He]].
  unfold CoapServer.handleCoapBatchLog. rewrite logEntries_spec.
  unfold wire. cbn [DeviceID Logs]. rewrite Hw, Hp1, app_nil_r. reflexivity.
Qed.

Lemma client_batch_logged_by_server_witness :
  exists rs : list LogRecord,
    CoapServer.handleCoapBatchLog emptyServer
      (Decoded (wire {| device_id := "d1"; logs := [(5, 1700000000); (21, 1700000060)] |}))
    = ({| cache := ∅; records := [] ++ rs; diag := [] |}, CoapServer.Created) /\
    device_id {| device_id := "d1"; logs := [(5, 1700000000); (21, 1700000060)] |} = "d1" /\
    Forall2 (logged_as "d1") [(5, 1700000000); (21, 1700000060)] rs.
Proof.
  apply (client_batch_logged_by_server "d1"
           [(5, 1700000000); (99, 1700000030); (21, 1700000060)] 10
           {| sender := {| deviceID := "d1"; logCache := [] |};
              entries := [(5, 1700000000); (21, 1700000060)];
              posts := [ {| device_id := "d1";
                            logs := [(5, 1700000000); (21, 1700000060)] |} ] |}
           {| device_id := "d1"; logs := [(5, 1700000000); (21, 1700000060)] |}
           emptyServer).
  - vm_compute. reflexivity.
  - apply list_elem_of_singleton. reflexivity.
Defined.

End EventsEndToEnd.

(** ** Severities as they are printed *)

Section PrintedSeverity.

Lemma mapSeverityToLevel_in_levels (sev : string) :
  In (mapSeverityToLevel sev) levels.
Proof.
  unfold mapSeverityToLevel, levels.
  repeat (destruct (String.eqb _ _); [cbn; tauto |]). cbn; tauto.
Qed.

Lemma replacer_severity_of_level (l : Z) :
  In l levels -> In (replacer_severity l) severities.
Proof.
  unfold levels. cbn [In]. intros H.
  repeat (destruct H as [<- | H]; [cbn; tauto |]). destruct H.
Qed.

Lemma replacer_severity_default (l : Z) :
  ~ In l levels -> replacer_severity l = "DEFAULT".
Proof.
  unfold levels, replacer_severity. cbn [In]. intros H.
  repeat match goal with
         | |- context [Z.eqb l ?c] =>
           destruct (Z.eqb_spec l c) as [-> | _]; [exfalso; apply H; tauto |]
         end.
  reflexivity.
Qed.

(** X5. [replacer] renames the three built-in keys ([level] to
    [severity], [time] to [timestamp], [msg] to [messages]) and leaves
    every other attribute as it is.  A level attribute whose value is
    the level of one of the eight severities is printed as that
    severity; whatever string went through [mapSeverityToLevel], the
    printed severity is one of the eight and never [DEFAULT], which is
    printed exactly for the levels that are none of the eight. *)
Theorem replacer_prints_severity_of_level (groups : list string) :
  (forall name : string,
      In name severities ->
      replacer groups (mkAttr "level" (LevelValue (mapSeverityToLevel name)))
      = mkAttr "severity" (OtherValue (VString name))) /\
  (forall sev : string,
      exists name : string,
        In name severities /\
        replacer groups (mkAttr "level" (LevelValue (mapSeverityToLevel sev)))
        = mkAttr "severity" (OtherValue (VString name))) /\
  (forall l : Z,
      replacer groups (mkAttr "level" (LevelValue l))
      = mkAttr "severity" (OtherValue (VString "DEFAULT"))
      <-> ~ In l levels) /\
  (forall v : AnyValue,
      replacer groups (mkAttr "time" v) = mkAttr "timestamp" v /\
      replacer groups (mkAttr "msg" v) = mkAttr "messages" v) /\
  (forall a : Attr,
      Key a <> "level" -> Key a <> "time" -> Key a <> "msg" ->
      replacer groups a = a) /\
  (forall a : Attr,
      Key (replacer groups a) <> "level" /\
      Key (replacer groups a) <> "time" /\
      Key (replacer groups a) <> "msg").
Proof.
  split; [| split; [| split; [| split; [| split]]]].
  - intros name Hin. unfold replacer. cbn.
    rewrite (replacer_severity_mapSeverityToLevel name Hin). reflexivity.
  - intros sev. exists (replacer_severity (mapSeverityToLevel sev)).
    split; [| reflexivity].
    apply replacer_severity_of_level, mapSeverityToLevel_in_levels.
  - intros l. unfold replacer. cbn. split.
    + intros [= H] Hin. apply replacer_severity_of_level in Hin.
      rewrite H in Hin. unfold severities in Hin. cbn in Hin.
      repeat (destruct Hin as [Hin | Hin]; [discriminate Hin |]). destruct Hin.
    + intros Hl. rewrite (replacer_severity_default l Hl). reflexivity.
  - intros v. split; reflexivity.
  - intros a H1 H2 H3. unfold replacer, LevelKey, TimeKey, MessageKey.
    apply String.eqb_neq in H1, H2, H3. rewrite H1, H2, H3. reflexivity.
  - intros a. unfold replacer, LevelKey, TimeKey, MessageKey.
    destruct (String.eqb_spec (Key a) "level") as [E1 | E1];
      [cbn; repeat split; discriminate |].
    destruct (String.eqb_spec (Key a) "time") as [E2 | E2];
      [cbn; repeat split; discriminate |].
    destruct (String.eqb_spec (Key a) "msg") as [E3 | E3];
      [cbn; repeat split; discriminate |].
    repeat split; assumption.
Qed.

Lemma temp_severity_cases (t : float64) :
  (tempToSeverityString t = "INFO" /\ tempToMessage t = "Temperature is fine") \/
  (tempToSeverityString t = "WARNING"
   /\ tempToMessage t = "Temperature rising – monitor closely") \/
  (tempToSeverityString t = "CRITICAL"
   /\ tempToMessage t = "Critical temperature – action needed") \/
  (tempToSeverityString t = "EMERGENCY" /\ tempToMessage t = "Emergency – device may fail").
Proof.
  unfold tempToSeverityString, tempToMessage.
  destruct (flt t 75); [tauto |].
  destruct (flt t 85); [tauto |].
  destruct (flt t 95); [tauto |].
  destruct (fle t 100); tauto.
Qed.

(** X6. The message of a metric record goes with its severity: for
    every temperature [tempToMessage] gives the message of the severity
    that [tempToSeverityString] gives, the two never disagree at a
    threshold.  The record that a /batchMetric handler emits has one of
    the levels of INFO, WARNING, CRITICAL and EMERGENCY, and [replacer]
    prints it as the severity of the temperature. *)
Theorem metric_record_message_matches_severity :
  (forall t : float64,
      tempToMessage t = severityMessage (tempToSeverityString t) /\
      In (tempToSeverityString t) ["INFO"; "WARNING"; "CRITICAL"; "EMERGENCY"] /\
      In (mapSeverityToLevel (tempToSeverityString t))
         [LevelInfo; LevelWarning; LevelCritical; LevelEmergency] /\
      replacer_severity (mapSeverityToLevel (tempToSeverityString t))
      = tempToSeverityString t) /\
  (forall (s : Server CoapServer.Metrics) (m : CoapServer.Metrics),
      exists r : LogRecord,
        records (fst (CoapServer.handleCoapMetrics s (Decoded m))) = records s ++ [r] /\
        replacer_severity (level r) = tempToSeverityString (CoapServer.TempC m) /\
        msg r = severityMessage (tempToSeverityString (CoapServer.TempC m)) /\
        attrs r = [("device_id", VString (CoapServer.DeviceID m));
                   ("value", VFloat (CoapServer.TempC m));
                   ("type", VString "devicemetric")]) /\
  (forall (s : Server HttpServer.Metrics) (m : HttpServer.Metrics),
      exists r : LogRecord,
        records (fst (HttpServer.handleMetrics s (Decoded m))) = records s ++ [r] /\
        replacer_severity (level r) = tempToSeverityString (HttpServer.MCUTempC m) /\
        msg r = severityMessage (tempToSeverityString (HttpServer.MCUTempC m)) /\
        attrs r = [("device_id", VString (HttpServer.DeviceID m));
                   ("value", VFloat (HttpServer.MCUTempC m));
                   ("type", VString "devicemetric")]).
Proof.
  assert (forall t : float64,
             tempToMessage t = severityMessage (tempToSeverityString t) /\
             In (tempToSeverityString t) ["INFO"; "WARNING"; "CRITICAL"; "EMERGENCY"] /\
             In (mapSeverityToLevel (tempToSeverityString t))
                [LevelInfo; LevelWarning; LevelCritical; LevelEmergency] /\
             replacer_severity (mapSeverityToLevel (tempToSeverityString t))
             = tempToSeverityString t) as Ht.
  { intros t.
    destruct (temp_severity_cases t) as [[-> ->] | [[-> ->] | [[-> ->] | [-> ->]]]];
      repeat split; cbn; tauto. }
  split; [exact Ht | split].
  - intros s m. eexists. split; [reflexivity |]. cbn [level msg attrs].
    destruct (Ht (CoapServer.TempC m)) as (H1 & _ & _ & H4).
    split; [exact H4 |]. split; [exact H1 | reflexivity].
  - intros s m. eexists. split; [reflexivity |]. cbn [level msg attrs].
    destruct (Ht (HttpServer.MCUTempC m)) as (H1 & _ & _ & H4).
    split; [exact H4 |]. split; [exact H1 | reflexivity].
Qed.

End PrintedSeverity.

(** ** Runs of requests on the CoAP server *)

Section RequestRuns.






Example server_run_sample :
  snd (coapServeAll emptyServer sampleRequests)
  = [CoapServer.Changed; CoapServer.Created; CoapServer.BadRequest;
     CoapServer.Changed; CoapServer.Changed; CoapServer.BadRequest] /\
  cache (fst (coapServeAll emptyServer sampleRequests)) !! "d1" = Some (coapSample "d1" 50) /\
  cache (fst (coapServeAll emptyServer sampleRequests)) !! "d2" = Some (coapSample "d2" 40) /\
  length (records (fst (coapServeAll emptyServer sampleRequests))) = 5%nat.
Proof. vm_compute. repeat split; reflexivity. Qed.

End RequestRuns.

(** ** The export callback after a run of requests *)

Section ExportAfterRequests.




End ExportAfterRequests.

(** ** The generated temperature and its severity *)

Section GeneratedTemperature.
Local Open Scope Q_scope.

Lemma Since_nonneg (now t : Z) : (t <= now)%Z -> (0 <= Since now t)%Z.
Proof. unfold Since, minInt64, maxInt64. lia. Qed.

Lemma ramp_between (base : float64) (e dur : Z) :
  (0 < dur)%Z -> (0 <= e <= dur)%Z -> base <= 100 ->
  base <= ramp base e dur <= 100.
Proof.
  intros Hd He Hb.
  destruct (ramp_ends base dur Hd) as [H0 H1].
  pose proof (ramp_mono base 0 e dur Hd Hb ltac:(lia)) as Hlo.
  pose proof (ramp_mono base e dur dur Hd Hb ltac:(lia)) as Hhi.
  rewrite H0 in Hlo. rewrite H1 in Hhi. split; assumption.
Qed.

Lemma severity_below_75 (t : float64) : t < 75 -> tempToSeverityString t = "INFO"%string.
Proof. intros H. unfold tempToSeverityString. apply flt_true in H. rewrite H. reflexivity. Qed.

Lemma coap_temp_range (s : CoapClient.MetricSender) (now : Z) (d : Draws) :
  coap_inv s ->
  (CoapClient.anomalyStartTime s <= now)%Z ->
  30 <= snd (CoapClient.generateTemp s now d) <= 100 /\
  (CoapClient.anomalyActive s = false ->
   30 <= snd (CoapClient.generateTemp s now d) <= 65).
Proof.
  intros [Hb Hact] Hnow.
  destruct (CoapClient.anomalyActive s) eqn:Ha.
  - destruct (Hact eq_refl) as (Hdur & Hhold & Hb30).
    split; [| discriminate].
    assert (0 <= CoapClient.anomalyDuration s)%Z as H1 by (rewrite Hdur; unfold Minute; lia).
    assert (0 <= CoapClient.anomalyHoldDuration s)%Z as H2
      by (rewrite Hhold; unfold Minute; lia).
    assert (CoapClient.anomalyDuration s + CoapClient.anomalyHoldDuration s <= maxInt64)%Z
      as H3 by (rewrite Hdur, Hhold; unfold Minute, maxInt64; lia).
    destruct (coap_phases s now d Ha H1 H2 H3) as (Hramp & Hheld & Hend).
    pose proof (Since_nonneg now (CoapClient.anomalyStartTime s) Hnow) as He.
    set (elapsed := Since now (CoapClient.anomalyStartTime s)) in *.
    destruct (Z.le_gt_cases elapsed (CoapClient.anomalyDuration s)) as [Hle | Hgt].
    + rewrite (Hramp Hle). cbn [snd].
      assert (CoapClient.baseTemp s <= ramp (CoapClient.baseTemp s) elapsed
                                          (CoapClient.anomalyDuration s) <= 100) as Hr.
      { apply ramp_between; [rewrite Hdur; unfold Minute; lia | lia | lra]. }
      lra.
    + destruct (Z.le_gt_cases elapsed
                  (CoapClient.anomalyDuration s + CoapClient.anomalyHoldDuration s))
        as [Hle2 | Hgt2].
      * rewrite (Hheld (conj Hgt Hle2)). cbn [snd]. lra.
      * rewrite (Hend Hgt2). cbn [snd].
        pose proof (clamp_range (Normal_Rand 45 (5 # 2) (rnd_temp d)) 30 65 ltac:(lra)).
        lra.
  - unfold CoapClient.generateTemp. rewrite Ha. cbn [snd].
    pose proof (clamp_range (Normal_Rand 45 (5 # 2) (rnd_temp d)) 30 65 ltac:(lra)).
    split; [lra | intros _; lra].
Qed.

(** X9. The temperature that a CoAP device sends is always between 30
    and 100: whatever the run of [SendMetric] calls behind the sender
    (with [rand.Float64()] in [[0, 1)]) and whatever the draws, a sample
    taken no earlier than the start of the current anomaly has its
    temperature in [[30, 100]], so the server never puts it in the
    catch-all bucket above 100; outside an anomaly it is in [[30, 65]]
    and its severity is INFO.  An HTTP device outside an anomaly sends
    an MCU temperature in [[20, 70]], of severity INFO as well. *)
Theorem generated_temperature_between_30_and_100
    (id : string) (ks : list Tick) (now stamp : Z) (d : Draws) :
  unit_interval ks ->
  (CoapClient.anomalyStartTime (CoapClient.run (CoapClient.NewMetricSender id) ks) <= now)%Z ->
  (30 <= CoapServer.TempC
           (snd (CoapClient.GenerateMetrics
                   (CoapClient.run (CoapClient.NewMetricSender id) ks) now stamp d)) <= 100) /\
  fle (CoapServer.TempC
         (snd (CoapClient.GenerateMetrics
                 (CoapClient.run (CoapClient.NewMetricSender id) ks) now stamp d))) 100 = true /\
  (CoapClient.anomalyActive (CoapClient.run (CoapClient.NewMetricSender id) ks) = false ->
   CoapServer.TempC
     (snd (CoapClient.GenerateMetrics
             (CoapClient.run (CoapClient.NewMetricSender id) ks) now stamp d)) <= 65 /\
   tempToSeverityString
     (CoapServer.TempC
        (snd (CoapClient.GenerateMetrics
                (CoapClient.run (CoapClient.NewMetricSender id) ks) now stamp d)))
   = "INFO"%string) /\
  (forall (h : HttpClient.MetricSender) (now' stamp' : Z) (d' : Draws),
      HttpClient.anomalyActive h = false ->
      20 <= HttpServer.MCUTempC (snd (HttpClient.GenerateMetrics h now' stamp' d')) <= 70 /\
      tempToSeverityString
        (HttpServer.MCUTempC (snd (HttpClient.GenerateMetrics h now' stamp' d')))
      = "INFO"%string).
Proof.
  intros Hks Hnow.
  set (s := CoapClient.run (CoapClient.NewMetricSender id) ks) in *.
  assert (coap_inv s) as Hinv.
  { apply coap_run_inv; [exact Hks |]. split; [cbn; lra | cbn; discriminate]. }
  rewrite (proj2 (coap_GenerateMetrics_temp s now stamp d)).
  destruct (coap_temp_range s now d Hinv Hnow) as [Hr Hidle].
  split; [exact Hr |]. split; [apply fle_true; lra |]. split.
  - intros Ha. specialize (Hidle Ha). split; [lra |].
    apply severity_below_75. lra.
  - intros h now' stamp' d' Ha.
    rewrite (proj2 (http_GenerateMetrics_temp h now' stamp' d')).
    unfold HttpClient.generateTemp. rewrite Ha. cbn [snd].
    pose proof (clamp_range
                  (Normal_Rand (HttpClient.BaseMCUTemp (HttpClient.Config h)) 3 (rnd_temp d'))
                  20 70 ltac:(lra)) as Hc.
    split; [lra |]. apply severity_below_75. lra.
Qed.

Lemma generated_temperature_between_30_and_100_witness :
  (30 <= CoapServer.TempC
           (snd (CoapClient.GenerateMetrics
                   (CoapClient.run (CoapClient.NewMetricSender "d1") [triggerTick])
                   (Minute * 5) 0 noDraws)) <= 100).
Proof.
  apply (generated_temperature_between_30_and_100 "d1" [triggerTick] (Minute * 5) 0 noDraws).
  - repeat constructor; cbn; lra.
  - vm_compute. discriminate.
Defined.

End GeneratedTemperature.

(** ** The life of an anomaly over the calls of [SendMetric] *)

Section AnomalyLife.

Lemma coap_SendMetric_active (s : CoapClient.MetricSender) (k : Tick) :
  coap_inv s -> CoapClient.anomalyActive s = true ->
  (Since (sampled k) (CoapClient.anomalyStartTime s) <= 7 * Minute ->
   fst (CoapClient.SendMetric s k) = s) /\
  (7 * Minute < Since (sampled k) (CoapClient.anomalyStartTime s) ->
   fst (CoapClient.SendMetric s k) = CoapClient.endAnomaly s).
Proof.
  intros [_ Hinv] Ha. destruct (Hinv Ha) as (Hdur & Hhold & _).
  unfold CoapClient.SendMetric, CoapClient.maybeTriggerAnomaly. rewrite Ha.
  rewrite (proj1 (coap_GenerateMetrics_temp _ _ _ _)).
  destruct (coap_phases s (sampled k) (draws k) Ha) as (Hramp & Hheld & Hend).
  - rewrite Hdur. unfold Minute. lia.
  - rewrite Hhold. unfold Minute. lia.
  - rewrite Hdur, Hhold. unfold Minute, maxInt64. lia.
  - rewrite Hdur, Hhold in *. unfold Minute in *. split; intros H.
    + destruct (Z.le_gt_cases (Since (sampled k) (CoapClient.anomalyStartTime s))
                  (60 * 1000000000 * 4)) as [Hle | Hgt].
      * rewrite (Hramp Hle). reflexivity.
      * rewrite Hheld by lia. reflexivity.
    + rewrite Hend by lia. reflexivity.
Qed.

(** X10. An anomaly of a CoAP device lasts seven minutes from its
    trigger, whatever is drawn meanwhile.  While the sender is in an
    anomaly, a call of [SendMetric] sampled within seven minutes of the
    start leaves the sender as it is (the trigger variate is not even
    looked at, the start, the durations and the base stay), and the
    first call sampled later ends the anomaly without starting another.
    Outside an anomaly a call starts one exactly when the trigger
    variate is above 2 (2 itself does not trigger), with the start at
    the instant read, four minutes of ramp, three of hold and a base of
    [30 + 35 u]. *)
Theorem anomaly_lasts_seven_minutes :
  (forall (id : string) (ks : list Tick) (k : Tick),
      unit_interval ks ->
      CoapClient.anomalyActive (CoapClient.run (CoapClient.NewMetricSender id) ks) = true ->
      (Since (sampled k)
             (CoapClient.anomalyStartTime (CoapClient.run (CoapClient.NewMetricSender id) ks))
       <= 7 * Minute ->
       fst (CoapClient.SendMetric (CoapClient.run (CoapClient.NewMetricSender id) ks) k)
       = CoapClient.run (CoapClient.NewMetricSender id) ks) /\
      (7 * Minute
       < Since (sampled k)
               (CoapClient.anomalyStartTime (CoapClient.run (CoapClient.NewMetricSender id) ks)) ->
       fst (CoapClient.SendMetric (CoapClient.run (CoapClient.NewMetricSender id) ks) k)
       = CoapClient.endAnomaly (CoapClient.run (CoapClient.NewMetricSender id) ks))) /\
  (forall (id : string) (ks ks' : list Tick),
      unit_interval ks ->
      CoapClient.anomalyActive (CoapClient.run (CoapClient.NewMetricSender id) ks) = true ->
      Forall (fun k =>
                Since (sampled k)
                      (CoapClient.anomalyStartTime
                         (CoapClient.run (CoapClient.NewMetricSender id) ks))
                <= 7 * Minute) ks' ->
      CoapClient.run (CoapClient.NewMetricSender id) (ks ++ ks')
      = CoapClient.run (CoapClient.NewMetricSender id) ks) /\
  (forall (s : CoapClient.MetricSender) (k : Tick),
      CoapClient.anomalyActive s = false ->
      ((trigger k <= 2)%Q -> fst (CoapClient.SendMetric s k) = s) /\
      ((2 < trigger k)%Q ->
       Since (sampled k) (started k) <= 7 * Minute ->
       fst (CoapClient.SendMetric s k)
       = {| CoapClient.deviceID := CoapClient.deviceID s;
            CoapClient.anomalyStartTime := started k;
            CoapClient.anomalyDuration := 4 * Minute;
            CoapClient.anomalyHoldDuration := 3 * Minute;
            CoapClient.anomalyActive := true;
            CoapClient.baseTemp := (30 + uniform k * 35)%Q |})).
Proof.
  assert (forall id ks, unit_interval ks ->
            coap_inv (CoapClient.run (CoapClient.NewMetricSender id) ks)) as Hreach.
  { intros id ks Hks. apply coap_run_inv; [exact Hks |].
    split; [cbn; lra | cbn; discriminate]. }
  split; [| split].
  - intros id ks k Hks Ha. apply coap_SendMetric_active; [apply Hreach, Hks | exact Ha].
  - intros id ks ks' Hks Ha Hall.
    unfold CoapClient.run at 1. rewrite foldl_app.
    fold (CoapClient.run (CoapClient.NewMetricSender id) ks).
    set (s := CoapClient.run (CoapClient.NewMetricSender id) ks) in *.
    pose proof (Hreach id ks Hks) as Hinv. fold s in Hinv.
    induction Hall as [| k ks' Hk Hall IH]; [reflexivity |].
    cbn [foldl].
    rewrite (proj1 (coap_SendMetric_active s k Hinv Ha) Hk). exact IH.
  - intros s k Ha. unfold CoapClient.SendMetric, CoapClient.maybeTriggerAnomaly.
    rewrite Ha. split.
    + intros Hz. apply fgt_false in Hz. rewrite Hz.
      rewrite (proj1 (coap_GenerateMetrics_temp _ _ _ _)).
      unfold CoapClient.generateTemp. rewrite Ha. reflexivity.
    + intros Hz Hwithin. apply fgt_true in Hz. rewrite Hz.
      rewrite (proj1 (coap_GenerateMetrics_temp _ _ _ _)).
      set (s1 := CoapClient.StartAnomaly s (Minute * 4) (started k) (uniform k)).
      destruct (coap_phases s1 (sampled k) (draws k) eq_refl) as (Hramp & Hheld & _).
      * cbn. unfold Minute. lia.
      * cbn. unfold Minute. lia.
      * cbn. unfold Minute, maxInt64. lia.
      * cbn [s1 CoapClient.StartAnomaly CoapClient.anomalyStartTime
                CoapClient.anomalyDuration CoapClient.anomalyHoldDuration] in Hramp, Hheld.
        assert (fst (CoapClient.generateTemp s1 (sampled k) (draws k)) = s1) as ->.
        { unfold Minute in *.
          destruct (Z.le_gt_cases (Since (sampled k) (started k)) (60 * 1000000000 * 4))
            as [Hle | Hgt].
          - rewrite (Hramp Hle). reflexivity.
          - rewrite Hheld by lia. reflexivity. }
        reflexivity.
Qed.

End AnomalyLife.

(** ** The event generator *)

Section EventGeneratorProperties.
Import EventGenerator.

Lemma sub64_exact (a b : Z) :
  minInt64 <= a - b <= maxInt64 -> sub64 a b = a - b.
Proof.
  unfold sub64, minInt64, maxInt64. intros H.
  rewrite Z.mod_small; lia.
Qed.

Lemma catalog_keys_length (eventIDs : list Z) :
  catalog_keys eventIDs -> length eventIDs = 27%nat.
Proof.
  intros H. rewrite (Permutation_length H). vm_compute. reflexivity.
Qed.

(** X11. The event generator waits between [Min] and [Max]: for
    durations in the [int64] range whose difference does not overflow,
    [Min < Max] gives an interval [t] with [Min <= t < Max] whatever
    the random source returns, and [Max <= Min] (the two equal, say)
    makes [rand.Int63n] panic.  The event identifier it then draws
    from the keys of the catalog, whatever their order, is always one
    that the catalog defines. *)
Theorem event_generator_interval_and_event :
  (forall (config : EventIntervalConfig) (v : Z),
      minInt64 <= Min config -> Max config <= maxInt64 ->
      minInt64 <= Max config - Min config <= maxInt64 ->
      (Min config < Max config ->
       exists t : Z, randomInterval config v = Some t /\ Min config <= t < Max config) /\
      (Max config <= Min config -> randomInterval config v = None)) /\
  (forall (eventIDs : list Z) (v : Z),
      catalog_keys eventIDs ->
      exists id : Z,
        randomEventID eventIDs v = Some id /\
        is_Some (eventDefinitions !! id) /\
        1 <= id <= 27).
Proof.
  split.
  - intros config v Hmin Hmax Hdiff. unfold randomInterval, Int63n.
    rewrite (sub64_exact _ _ Hdiff). cbv zeta. split.
    + intros Hlt. destruct (Z.leb_spec (Max config - Min config) 0) as [H | H]; [lia |].
      pose proof (Z.mod_pos_bound v (Max config - Min config) H) as Hr.
      eexists. split; [reflexivity |].
      rewrite add64_exact by lia. lia.
    + intros Hle. destruct (Z.leb_spec (Max config - Min config) 0) as [H | H];
        [reflexivity | lia].
  - intros eventIDs v Hkeys. unfold randomEventID, Intn.
    rewrite (catalog_keys_length eventIDs Hkeys). cbn [Z.of_nat Z.leb Z.compare].
    pose proof (Z.mod_pos_bound v 27 ltac:(lia)) as Hr.
    destruct (lookup_lt_is_Some_2 eventIDs (Z.to_nat (v mod (Z.of_nat 27)))) as [id Hid].
    { rewrite (catalog_keys_length eventIDs Hkeys). lia. }
    exists id. split; [exact Hid |].
    assert (is_Some (eventDefinitions !! id)) as Hsome.
    { apply list_elem_of_lookup_2 in Hid. unfold catalog_keys in Hkeys.
      rewrite Hkeys in Hid. apply list_elem_of_fmap in Hid as ([k def] & -> & Hin).
      apply elem_of_map_to_list in Hin. cbn. eexists. exact Hin. }
    split; [exact Hsome | apply catalog_defines_1_to_27, Hsome].
Qed.

Example event_generator_defaults :
  randomInterval {| Min := 10 * 1000000000; Max := 15 * 1000000000 |} 123456789012345
  = Some 11789012345 /\
  randomInterval {| Min := 10 * 1000000000; Max := 10 * 1000000000 |} 123456789012345
  = None.
Proof. split; vm_compute; reflexivity. Qed.

End EventGeneratorProperties.

(** ** The alert mail function *)

Section EmailProperties.
Import Email.

(** X12. [sendEmailAlert] calls [smtp.SendMail] at least once and at
    most three times and stops at the first call that succeeds: it
    returns [nil] exactly when one of the first three calls succeeds,
    the error of the third call otherwise; the calls before the last
    all failed.  It sleeps one second after a first failure and two
    after a second, three seconds at most and none after the third. *)
Theorem sendEmailAlert_retries_three_times (mail : nat -> option string) :
  (1 <= calls (sendEmailAlert mail) <= 3)%nat /\
  (err (sendEmailAlert mail) = None <-> exists i : nat, (i < 3)%nat /\ mail i = None) /\
  (err (sendEmailAlert mail) = None -> mail (calls (sendEmailAlert mail) - 1)%nat = None) /\
  (err (sendEmailAlert mail) <> None ->
   calls (sendEmailAlert mail) = 3%nat /\ err (sendEmailAlert mail) = mail 2%nat) /\
  (forall i : nat, (i < calls (sendEmailAlert mail) - 1)%nat -> mail i <> None) /\
  slept (sendEmailAlert mail)
  = match calls (sendEmailAlert mail) with
    | 1%nat => 0
    | 2%nat => 1
    | _ => 3
    end.
Proof.
  unfold sendEmailAlert. cbn [sendLoop].
  destruct (mail 0%nat) as [e0 |] eqn:H0;
    [destruct (mail 1%nat) as [e1 |] eqn:H1;
       [destruct (mail 2%nat) as [e2 |] eqn:H2 |] |];
    cbn [calls slept err Nat.ltb Nat.leb Z.of_nat].
  - split; [lia |]. split.
    { split; [discriminate |]. intros (i & Hi & Hm).
      assert (i = 0 \/ i = 1 \/ i = 2)%nat as [-> | [-> | ->]] by lia; congruence. }
    split; [discriminate |]. split; [intros _; split; reflexivity |].
    split; [| reflexivity].
    intros i Hi. assert (i = 0 \/ i = 1)%nat as [-> | ->] by lia; congruence.
  - split; [lia |]. split.
    { split; [intros _; exists 2%nat; split; [lia | exact H2] | reflexivity]. }
    split; [intros _; exact H2 |]. split; [congruence |].
    split; [| reflexivity].
    intros i Hi. assert (i = 0 \/ i = 1)%nat as [-> | ->] by (cbn in Hi; lia); congruence.
  - split; [lia |]. split.
    { split; [intros _; exists 1%nat; split; [lia | exact H1] | reflexivity]. }
    split; [intros _; exact H1 |]. split; [congruence |].
    split; [| reflexivity].
    intros i Hi. assert (i = 0)%nat as -> by (cbn in Hi; lia). congruence.
  - split; [lia |]. split.
    { split; [intros _; exists 0%nat; split; [lia | exact H0] | reflexivity]. }
    split; [intros _; exact H0 |]. split; [congruence |].
    split; [| reflexivity].
    intros i Hi. cbn in Hi. lia.
Qed.

Lemma sendEmailAlert_none (mail : nat -> option string) :
  err (sendEmailAlert mail) = None <-> exists i : nat, (i < 3)%nat /\ mail i = None.
Proof.
  unfold sendEmailAlert. cbn [sendLoop].
  destruct (mail 0%nat) as [e0 |] eqn:H0;
    [destruct (mail 1%nat) as [e1 |] eqn:H1;
       [destruct (mail 2%nat) as [e2 |] eqn:H2 |] |];
    cbn [err].
  - split; [discriminate |]. intros (i & Hi & Hm).
    assert (i = 0 \/ i = 1 \/ i = 2)%nat as [-> | [-> | ->]] by lia; congruence.
  - split; [intros _; exists 2%nat; split; [lia | exact H2] | reflexivity].
  - split; [intros _; exists 1%nat; split; [lia | exact H1] | reflexivity].
  - split; [intros _; exists 0%nat; split; [lia | exact H0] | reflexivity].
Qed.

(** X13. [AlertSubscriber] sends mail only for an alert that passed
    every check: [smtp.SendMail] is called only when the event parsed,
    its data is not empty, the data decoded into an alert and the alert
    names a device and a trend status.  The function returns [nil]
    exactly when, besides, one of the three attempts succeeded. *)
Theorem AlertSubscriber_mails_valid_alerts_only (e : Event) (mail : nat -> option string) :
  (forall r : Sent,
      snd (AlertSubscriber e mail) = Some r ->
      r = sendEmailAlert mail /\
      exists (data : string) (alert : TrendFlag),
        dataAs e = Some data /\ data <> "" /\
        unmarshal e = Some alert /\
        DeviceID alert <> "" /\ TrendStatus alert <> "") /\
  (fst (AlertSubscriber e mail) = None <->
   (exists (data : string) (alert : TrendFlag),
       dataAs e = Some data /\ data <> "" /\
       unmarshal e = Some alert /\
       DeviceID alert <> "" /\ TrendStatus alert <> "") /\
   (exists i : nat, (i < 3)%nat /\ mail i = None)).
Proof.
  pose proof (sendEmailAlert_none mail) as Hsend.
  unfold AlertSubscriber.
  destruct (dataAs e) as [data |] eqn:Hdata.
  2: { split; [intros r [=] |]. split; [discriminate |].
       intros [(d' & a & [=] & _) _]. }
  destruct data as [| c data]; cbn [String.length Nat.eqb].
  { split; [intros r [=] |]. split; [discriminate |].
    intros [(d' & a & [= <-] & Hne & _) _]. congruence. }
  destruct (unmarshal e) as [alert |] eqn:Hum.
  2: { split; [intros r [=] |]. split; [discriminate |].
       intros [(d' & a & _ & _ & [=] & _) _]. }
  unfold validateAlert.
  destruct (String.eqb_spec (DeviceID alert) "") as [Hd | Hd].
  { split; [intros r [=] |]. split; [discriminate |].
    intros [(d' & a & _ & _ & [= <-] & Hne & _) _]. congruence. }
  destruct (String.eqb_spec (TrendStatus alert) "") as [Ht | Ht].
  { split; [intros r [=] |]. split; [discriminate |].
    intros [(d' & a & _ & _ & [= <-] & _ & Hne) _]. congruence. }
  assert (exists (data0 : string) (alert0 : TrendFlag),
             Some (String c data) = Some data0 /\ data0 <> "" /\
             Some alert = Some alert0 /\
             DeviceID alert0 <> "" /\ TrendStatus alert0 <> "") as Hok.
  { exists (String c data), alert. repeat split; (reflexivity || discriminate || assumption). }
  destruct (err (sendEmailAlert mail)) as [x |] eqn:Herr; cbn [fst snd].
  - split; [intros r [= <-]; split; [reflexivity | exact Hok] |].
    split; [discriminate |]. intros [_ Hi]. apply Hsend in Hi. congruence.
  - split; [intros r [= <-]; split; [reflexivity | exact Hok] |].
    split; [intros _; split; [exact Hok | apply Hsend; reflexivity] | reflexivity].
Qed.

End EmailProperties.

(** ** The alert function *)

Section AlertProperties.
Import Alert.

Lemma publishAll_spec (outcome : nat -> PublishOutcome) (alerts : list Email.TrendFlag) :
  forall i : nat,
    fst (publishAll outcome i alerts) `sublist_of` alerts /\
    snd (publishAll outcome i alerts) = length (fst (publishAll outcome i alerts)) /\
    (snd (publishAll outcome i alerts) <= length alerts)%nat /\
    ((forall j, (j < length alerts)%nat -> outcome (i + j)%nat = Published) ->
     fst (publishAll outcome i alerts) = alerts).
Proof.
  induction alerts as [| alert rest IH]; intros i.
  - cbn. repeat split; auto.
  - cbn [publishAll]. destruct (IH (S i)) as (Hsub & Hn & Hle & Hall).
    destruct (publishAll outcome (S i) rest) as [sent n]. cbn [fst snd] in *.
    destruct (outcome i) eqn:Hi; cbn [fst snd length].
    + split; [apply sublist_cons, Hsub |]. split; [exact Hn |]. split; [lia |].
      intros H. specialize (H 0%nat ltac:(lia)). rewrite Nat.add_0_r in H. congruence.
    + split; [apply sublist_cons, Hsub |]. split; [exact Hn |]. split; [lia |].
      intros H. specialize (H 0%nat ltac:(lia)). rewrite Nat.add_0_r in H. congruence.
    + split; [apply sublist_skip, Hsub |]. split; [lia |]. split; [lia |].
      intros H. f_equal. apply Hall. intros j Hj.
      specialize (H (S j) ltac:(lia)). rewrite Nat.add_succ_r in H. exact H.
Qed.

Lemma readRows_spec (results : list RowResult) :
  (In RowError results -> readRows results = None) /\
  (forall alerts, readRows results = Some alerts -> results = map Row alerts).
Proof.
  induction results as [| [row |] rest [IH1 IH2]].
  - split; [intros [] | intros alerts [= <-]; reflexivity].
  - cbn [readRows]. split.
    + intros [H | H]; [discriminate |]. rewrite (IH1 H). reflexivity.
    + intros alerts. destruct (readRows rest) as [a |]; [| discriminate].
      intros [= <-]. cbn [map]. f_equal. apply IH2. reflexivity.
  - split; [reflexivity | discriminate].
Qed.

(** X14. [AlertHandler] publishes only what it read in full: when a
    client cannot be made, the query fails or any row fails to read,
    the response is a 500 and nothing is published, not even the rows
    read before the failing one.  Otherwise the response is a 200; with
    no row it says so and publishes nothing; with rows the messages
    published are rows of the result, in their order, each at most
    once, [successCount] is their number, at most the number of rows,
    and all rows are published when every publication succeeds. *)
Theorem AlertHandler_publishes_rows_read_in_full (w : World) :
  (status (AlertHandler w) = 500 \/ status (AlertHandler w) = 200) /\
  (status (AlertHandler w) = 500 -> published (AlertHandler w) = []) /\
  (status (AlertHandler w) = 200 <->
   bigquery_ok w = true /\
   exists alerts : list Email.TrendFlag,
     query w = Some (map Row alerts) /\ (alerts = [] \/ pubsub_ok w = true)) /\
  (forall results : list RowResult,
      query w = Some results -> In RowError results ->
      status (AlertHandler w) = 500 /\ published (AlertHandler w) = []) /\
  (forall alerts : list Email.TrendFlag,
      bigquery_ok w = true -> query w = Some (map Row alerts) -> pubsub_ok w = true ->
      alerts <> [] ->
      published (AlertHandler w) `sublist_of` alerts /\
      body (AlertHandler w)
      = PublishedOutOf (length (published (AlertHandler w))) (length alerts) /\
      (length (published (AlertHandler w)) <= length alerts)%nat /\
      ((forall j, (j < length alerts)%nat -> outcome w j = Published) ->
       published (AlertHandler w) = alerts)) /\
  (bigquery_ok w = true -> query w = Some [] ->
   body (AlertHandler w) = NoAnomalies /\ published (AlertHandler w) = []).
Proof.
  assert (forall alerts, readRows (map Row alerts) = Some alerts) as Hread.
  { induction alerts as [| a alerts IH]; [reflexivity |].
    cbn [map readRows]. rewrite IH. reflexivity. }
  unfold AlertHandler.
  destruct (bigquery_ok w) eqn:Hbq; cbn [negb].
  2: { split; [left; reflexivity |]. split; [reflexivity |].
       split; [split; [discriminate | intros [[=] _]] |].
       split; [intros; split; reflexivity |].
       split; [intros alerts [=] | intros [=]]. }
  destruct (query w) as [results |] eqn:Hq.
  2: { split; [left; reflexivity |]. split; [reflexivity |].
       split; [split; [discriminate | intros [_ (a & [=] & _)]] |].
       split; [intros results [=] |].
       split; [intros alerts _ [=] | intros _ [=]]. }
  destruct (readRows results) as [alerts |] eqn:Hrows.
  2: { split; [left; reflexivity |]. split; [reflexivity |].
       split; [split; [discriminate |
                       intros [_ (a & [= ->] & _)]; rewrite Hread in Hrows; discriminate] |].
       split; [intros results' [= <-] _; split; reflexivity |].
       split; [intros a _ [= ->]; rewrite Hread in Hrows; discriminate |
               intros _ [= ->]; discriminate]. }
  pose proof (proj2 (readRows_spec results) alerts Hrows) as Hres. subst results.
  assert (forall alerts', Some (map Row alerts) = Some (map Row alerts') -> alerts' = alerts)
    as Hinj.
  { intros alerts' [= H]. apply (f_equal readRows) in H.
    rewrite !Hread in H. congruence. }
  destruct alerts as [| a alerts].
  { split; [right; reflexivity |]. split; [discriminate |].
    split; [split; [intros _; split; [reflexivity | exists []; auto] | reflexivity] |].
    split; [intros results' [= <-] [] |].
    split; [intros alerts' _ H _ Hne; apply Hinj in H; congruence |].
    intros _ _. split; reflexivity. }
  destruct (pubsub_ok w) eqn:Hps; cbn [negb].
  2: { split; [left; reflexivity |]. split; [reflexivity |].
       split; [split; [discriminate |
                       intros [_ (al & H & [-> | [=]])]; discriminate H] |].
       split; [intros results' [= <-] Hin; exfalso;
               pose proof (proj1 (readRows_spec (map Row (a :: alerts))) Hin) as Hn;
               rewrite Hrows in Hn; discriminate |].
       split; [intros alerts' _ _ [=] | intros _ [=]]. }
  pose proof (publishAll_spec (outcome w) (a :: alerts) 0) as (Hsub & Hn & Hle & Hall).
  destruct (publishAll (outcome w) 0 (a :: alerts)) as [sent n]. cbn [fst snd] in *.
  cbn [status body published].
  split; [right; reflexivity |]. split; [discriminate |].
  split; [split; [intros _; split; [reflexivity | exists (a :: alerts); auto] | reflexivity] |].
  split; [intros results' [= <-] Hin; exfalso;
          pose proof (proj1 (readRows_spec (map Row (a :: alerts))) Hin) as Hn';
          rewrite Hrows in Hn'; discriminate |].
  split; [| intros _ [=]].
  intros alerts' _ H _ _. apply Hinj in H. subst alerts'.
  split; [exact Hsub |]. split; [rewrite Hn; reflexivity |]. split; [lia |].
  exact Hall.
Qed.

End AlertProperties.
